(** * FIMS dashboard: inspection lifecycle and record-query engine

    A shallow embedding of the logic of [src/components/FIMSDashboard.tsx]:
    the record filter ([getFilteredInspections]), the dashboard counters
    ([getStatusCounts], [getCompletionRate]), the status display mappings
    ([getStatusColor], [getStatusText]) and the two lifecycle handlers
    ([handleCompleteInspection], [handleConfirmRevisit]); further the
    loading of the data, the deletion of a record, the cells of the two
    tables, the photo viewer, the tabs and the device detection.

    Conventions of the embedding:
    - a JavaScript string is a [string]: the sequence of its characters
      when they are ASCII, in general the bytes of its UTF-8 form, on
      which [===] and [includes] are those of well-formed strings;
    - [toLowerCase] and [toUpperCase] are the case mappings of the engine,
      which follow the Unicode tables and are not character by character;
      they are taken from the environment and nothing is assumed of them;
    - a value that may be [null] or [undefined] is an [option];
    - a JavaScript number is an IEEE 754 binary64 value, a [spec_float] of
      the Standard Library with [prec = 53] and [emax = 1024], and the
      operations on numbers are those of [SpecFloat];
    - the i18n library is the finite map of the keys its lookup resolves
      to the texts it gives for them. *)

From Stdlib Require Import ZArith List String Ascii Bool Lia.
From Stdlib Require Import SpecFloat.
From stdpp Require Import base option list strings gmap.

Local Open Scope string_scope.

(** * The program *)

(** ** JavaScript primitives *)

Module JS.

Definition is_upper (c : ascii) : bool :=
  (65 <=? nat_of_ascii c)%nat && (nat_of_ascii c <=? 90)%nat.

Definition is_lower (c : ascii) : bool :=
  (97 <=? nat_of_ascii c)%nat && (nat_of_ascii c <=? 122)%nat.

Definition lower_ascii (c : ascii) : ascii :=
  if is_upper c then ascii_of_nat (nat_of_ascii c + 32) else c.

Definition upper_ascii (c : ascii) : ascii :=
  if is_lower c then ascii_of_nat (nat_of_ascii c - 32) else c.

(** The ASCII letters of [s] lower-cased, every other character left as
    it is: the case mapping under which a regular expression with the
    flag [i] and an ASCII pattern matches, and what [toLowerCase] does
    to a string of ASCII characters. *)
Fixpoint lowercase_ascii (s : string) : string :=
  match s with
  | EmptyString => EmptyString
  | String c s' => String (lower_ascii c) (lowercase_ascii s')
  end.

(** The ASCII letters of [s] upper-cased; what [toUpperCase] does to a
    string of ASCII characters. *)
Fixpoint uppercase_ascii (s : string) : string :=
  match s with
  | EmptyString => EmptyString
  | String c s' => String (upper_ascii c) (uppercase_ascii s')
  end.

(** [hay.includes(needle)] *)
Fixpoint includes (hay needle : string) : bool :=
  String.prefix needle hay ||
  match hay with
  | EmptyString => false
  | String _ hay' => includes hay' needle
  end.

(** [s === ''] *)
Definition is_empty (s : string) : bool :=
  match s with EmptyString => true | _ => false end.

(** Truthiness of a possibly-null string: [null], [undefined] and ['']
    are falsy. *)
Definition truthy (o : option string) : bool :=
  match o with
  | Some s => negb (is_empty s)
  | None => false
  end.

(** [a || b] on possibly-null strings. *)
Definition or_else (a b : option string) : option string :=
  if truthy a then a else b.

(** Numbers are binary64 values. *)
Definition prec : Z := 53.
Definition emax : Z := 1024.

Abbreviation number := spec_float.

(** The number denoted by an integer, such as an array length or an
    integer literal. *)
Definition of_Z (z : Z) : number := binary_normalize prec emax z 0 false.
Definition of_nat (n : nat) : number := of_Z (Z.of_nat n).

(** [x / y] and [x * y]. *)
Definition div (x y : number) : number := SFdiv prec emax x y.
Definition mul (x y : number) : number := SFmul prec emax x y.

(** [Math.round(x)]: the integral number closest to [x], the one closer
    to +infinity when two are equally close; an integral [x], a zero, an
    infinity and NaN are returned as they are, and a negative [x] that
    rounds to zero gives -0. *)
Definition Math_round (x : number) : number :=
  match x with
  | S754_finite s m (Zneg k) =>
      let d := Z.pow 2 (Zpos k) in
      let n := Z.div (2 * cond_Zopp s (Zpos m) + d) (2 * d) in
      if Z.eqb n 0 then S754_zero s else of_Z n
  | _ => x
  end.

End JS.

(** ** Data model *)

(** A value of type [any] (the [form_data] payload). *)
#[warnings="-register-all"]
Inductive json : Type :=
  | JNull
  | JBool (b : bool)
  | JNumber (x : JS.number)
  | JString (s : string)
  | JArray (l : list json)
  | JObject (l : list (string * json)).

Record InspectionPhoto : Type := {
  photo_id : string;
  photo_url : string;
  photo_name : option string;
  photo_description : option string;
  photo_order : Z;
  uploaded_at : string
}.

(** The fields a row of [inspections] is read through. The filter guards
    [location_name], [inspection_number] and [filled_by_name] with [?.],
    so they may be missing. *)
Record Inspection : Type := {
  id : string;
  inspection_number : option string;
  category_id : string;
  inspector_id : string;
  location_name : option string;
  latitude : option JS.number;
  longitude : option JS.number;
  address : option string;
  planned_date : option string;
  inspection_date : option string;
  status : string;
  form_data : json;
  is_compliant : option bool;
  requires_revisit : bool;
  created_at : string;
  updated_at : string;
  filled_by_name : option string;
  anganwadi_forms : option json;
  photos : option (list InspectionPhoto)
}.

Record Category : Type := {
  cat_id : string;
  cat_name : string;
  cat_name_marathi : string;
  cat_description : string;
  cat_form_type : string;
  cat_is_active : bool
}.

Record Inspector : Type := {
  insp_id : string;
  insp_name : string;
  insp_role : string
}.

Record ColumnFilters : Type := {
  cf_inspectionNumber : string;
  cf_location : string;
  cf_category : string;
  cf_status : string;
  cf_date : string;
  cf_filled_by_name : string
}.

(** The component state the modelled functions read and write. *)
Record Dashboard : Type := {
  isLoading : bool;
  inspections : list Inspection;
  categories : list Category;
  selectedCategory : string;
  selectedStatus : string;
  searchTerm : string;
  columnFilters : ColumnFilters;
  showRevisitModal : bool;
  revisitInspectionId : string;
  availableInspectors : list Inspector;
  selectedInspector : string
}.

(** What the component takes from its surroundings: the i18n library
    behind [t], the locale behind [toLocaleDateString] and the case
    mappings of the engine. *)
Record Env : Type := {
  (** the keys the lookup of the i18n library resolves, with the text it
      gives for each: the entries of the resource bundles under their
      dotted keys, and whatever else the lookup finds for a key (i18next
      walks the resource objects and also finds the names they inherit,
      such as [statuses.constructor]) *)
  translations : gmap string string;
  (** [new Date(s).toLocaleDateString()] *)
  toLocaleDateString : string -> string;
  (** [s.toLowerCase()] and [s.toUpperCase()] *)
  toLowerCase : string -> string;
  toUpperCase : string -> string
}.

(** [t(key, defaultValue)]: what the lookup resolves for [key], the
    default when it resolves nothing. What the lookup gives is taken as a
    text, as the code takes it. *)
Definition t (env : Env) (key defaultValue : string) : string :=
  default defaultValue (translations env !! key).

(** ** Status display mappings *)

(** A [switch] on a string whose groups of [case] labels each return. *)
Definition switch {A : Type} (cases : list (list string * A)) (dflt : A)
    (x : string) : A :=
  match List.find (fun c => existsb (String.eqb x) (fst c)) cases with
  | Some c => snd c
  | None => dflt
  end.

Definition getStatusColor_cases : list (list string * string) :=
  [ (["approved"; "completed"],
     "bg-gradient-to-r from-emerald-500 to-teal-500 text-white");
    (["submitted"; "under_review"],
     "bg-gradient-to-r from-blue-500 to-cyan-500 text-white");
    (["draft"; "pending"],
     "bg-gradient-to-r from-slate-400 to-slate-500 text-white");
    (["rejected"],
     "bg-gradient-to-r from-rose-500 to-red-500 text-white");
    (["reassigned"],
     "bg-gradient-to-r from-violet-500 to-purple-500 text-white") ].

Definition getStatusColor_default : string :=
  "bg-gradient-to-r from-slate-400 to-slate-500 text-white".

Definition getStatusColor (status : string) : string :=
  switch getStatusColor_cases getStatusColor_default status.

Definition getStatusText (env : Env) (status : string) : string :=
  t env ("statuses." ++ status) (toUpperCase env status).

(** The statuses of the lifecycle. *)
Definition status_enum : list string :=
  [ "draft"; "planned"; "in_progress"; "submitted"; "under_review";
    "approved"; "rejected"; "reassigned" ].

(** ** Query engine *)

(** [field?.toLowerCase().includes(term.toLowerCase())]: a missing field
    gives [undefined], which is falsy. *)
Definition includes_nocase (env : Env) (field : option string) (term : string)
    : bool :=
  match field with
  | Some v => JS.includes (toLowerCase env v) (toLowerCase env term)
  | None => false
  end.

Definition matchesSearch (env : Env) (st : Dashboard) (inspection : Inspection)
    : bool :=
  JS.is_empty (searchTerm st) ||
  includes_nocase env (location_name inspection) (searchTerm st) ||
  includes_nocase env (inspection_number inspection) (searchTerm st).

Definition matchesCategory (st : Dashboard) (inspection : Inspection) : bool :=
  JS.is_empty (selectedCategory st) ||
  String.eqb (category_id inspection) (selectedCategory st).

Definition matchesStatus (st : Dashboard) (inspection : Inspection) : bool :=
  JS.is_empty (selectedStatus st) ||
  String.eqb (status inspection) (selectedStatus st).

Definition matchesInspectionNumber (env : Env) (st : Dashboard)
    (inspection : Inspection) : bool :=
  JS.is_empty (cf_inspectionNumber (columnFilters st)) ||
  includes_nocase env (inspection_number inspection)
    (cf_inspectionNumber (columnFilters st)).

Definition matchesLocation (env : Env) (st : Dashboard)
    (inspection : Inspection) : bool :=
  JS.is_empty (cf_location (columnFilters st)) ||
  includes_nocase env (location_name inspection)
    (cf_location (columnFilters st)).

(** [categories.find(c => c.id === inspection.category_id)] and the name
    shown for it, [''] when there is no such category. *)
Definition categoryName (env : Env) (st : Dashboard) (inspection : Inspection)
    : string :=
  match List.find (fun c => String.eqb (cat_id c) (category_id inspection))
          (categories st) with
  | Some category =>
      t env ("categories." ++ cat_form_type category) (cat_name category)
  | None => ""
  end.

Definition matchesCategoryFilter (env : Env) (st : Dashboard)
    (inspection : Inspection) : bool :=
  JS.is_empty (cf_category (columnFilters st)) ||
  JS.includes (toLowerCase env (categoryName env st inspection))
    (toLowerCase env (cf_category (columnFilters st))).

Definition matchesStatusFilter (env : Env) (st : Dashboard)
    (inspection : Inspection) : bool :=
  JS.is_empty (cf_status (columnFilters st)) ||
  JS.includes (toLowerCase env (getStatusText env (status inspection)))
    (toLowerCase env (cf_status (columnFilters st))).

(** [inspection.inspection_date || inspection.planned_date] *)
Definition inspectionDate (inspection : Inspection) : option string :=
  JS.or_else (inspection_date inspection) (planned_date inspection).

Definition matchesDateFilter (env : Env) (st : Dashboard)
    (inspection : Inspection) : bool :=
  JS.is_empty (cf_date (columnFilters st)) ||
  match inspectionDate inspection with
  | Some d =>
      negb (JS.is_empty d) &&
      JS.includes (toLocaleDateString env d) (cf_date (columnFilters st))
  | None => false
  end.

Definition matchesFilledBy (env : Env) (st : Dashboard)
    (inspection : Inspection) : bool :=
  JS.is_empty (cf_filled_by_name (columnFilters st)) ||
  includes_nocase env (filled_by_name inspection)
    (cf_filled_by_name (columnFilters st)).

(** The callback of the filter: the conjunction of the nine axes. *)
Definition passes (env : Env) (st : Dashboard) (inspection : Inspection)
    : bool :=
  matchesSearch env st inspection && matchesCategory st inspection &&
  matchesStatus st inspection &&
  matchesInspectionNumber env st inspection &&
  matchesLocation env st inspection &&
  matchesCategoryFilter env st inspection &&
  matchesStatusFilter env st inspection && matchesDateFilter env st inspection &&
  matchesFilledBy env st inspection.

Definition getFilteredInspections (env : Env) (st : Dashboard)
    : list Inspection :=
  List.filter (passes env st) (inspections st).

(** ** Aggregation *)

Record StatusCounts : Type := {
  total : nat;
  pending : nat;
  completed : nat;
  submitted : nat
}.

(** [[...].includes(x)] on an array of strings. *)
Definition array_includes (l : list string) (x : string) : bool :=
  existsb (String.eqb x) l.

Definition getStatusCounts (st : Dashboard) : StatusCounts :=
  {| total := List.length (inspections st);
     pending :=
       List.length
         (List.filter
            (fun i => array_includes ["planned"; "in_progress"; "draft"] (status i))
            (inspections st));
     completed :=
       List.length
         (List.filter (fun i => String.eqb (status i) "approved")
            (inspections st));
     submitted :=
       List.length
         (List.filter (fun i => String.eqb (status i) "submitted")
            (inspections st)) |}.

Definition getCompletionRate (st : Dashboard) : JS.number :=
  let c := getStatusCounts st in
  if Nat.eqb (total c) 0 then JS.of_Z 0
  else
    JS.Math_round
      (JS.mul (JS.div (JS.of_nat (completed c)) (JS.of_nat (total c)))
         (JS.of_Z 100)).

(** ** Lifecycle handlers *)

(** A request sent to the record store. *)
Inductive StoreCall : Type :=
  | UpdateStatus (inspectionId newStatus : string)
  | SelectInspections
  | ReassignInspection (inspectionId inspectorId : string)
  | GetInspections
  | FetchCategories
  | FetchInspectors.

(** The component together with what its handlers act on: the rows of
    [fims_inspections] in the store, the requests sent to the store so
    far, and the messages shown with [alert] and written to the console,
    oldest first. *)
Record World : Type := {
  ui : Dashboard;
  rows : list Inspection;
  calls : list StoreCall;
  alerts : list string;
  console : list string
}.

(** The record store as the handlers see it. A request that fails yields
    the message of its error. *)
Record Backend : Type := {
  (** whether [../lib/supabase] exports a client *)
  supabase_client : bool;
  (** the error, if any, of an update of the row with this id *)
  update_error : string -> list Inspection -> option string;
  (** the select of [fetchInspectionsData] *)
  select_inspections : list Inspection -> string + list Inspection;
  reassignInspection :
    string -> string -> list Inspection -> string + list Inspection;
  getInspections : list Inspection -> string + list Inspection;
  fetchCategories : string + list Category;
  fetchInspectors : string + list Inspector
}.

Definition setIsLoading (b : bool) (d : Dashboard) : Dashboard :=
  {| isLoading := b; inspections := inspections d;
     categories := categories d; selectedCategory := selectedCategory d;
     selectedStatus := selectedStatus d; searchTerm := searchTerm d;
     columnFilters := columnFilters d;
     showRevisitModal := showRevisitModal d;
     revisitInspectionId := revisitInspectionId d;
     availableInspectors := availableInspectors d;
     selectedInspector := selectedInspector d |}.

Definition setInspections (l : list Inspection) (d : Dashboard) : Dashboard :=
  {| isLoading := isLoading d; inspections := l;
     categories := categories d; selectedCategory := selectedCategory d;
     selectedStatus := selectedStatus d; searchTerm := searchTerm d;
     columnFilters := columnFilters d;
     showRevisitModal := showRevisitModal d;
     revisitInspectionId := revisitInspectionId d;
     availableInspectors := availableInspectors d;
     selectedInspector := selectedInspector d |}.

Definition setCategories (l : list Category) (d : Dashboard) : Dashboard :=
  {| isLoading := isLoading d; inspections := inspections d;
     categories := l; selectedCategory := selectedCategory d;
     selectedStatus := selectedStatus d; searchTerm := searchTerm d;
     columnFilters := columnFilters d;
     showRevisitModal := showRevisitModal d;
     revisitInspectionId := revisitInspectionId d;
     availableInspectors := availableInspectors d;
     selectedInspector := selectedInspector d |}.

Definition setAvailableInspectors (l : list Inspector) (d : Dashboard)
    : Dashboard :=
  {| isLoading := isLoading d; inspections := inspections d;
     categories := categories d; selectedCategory := selectedCategory d;
     selectedStatus := selectedStatus d; searchTerm := searchTerm d;
     columnFilters := columnFilters d;
     showRevisitModal := showRevisitModal d;
     revisitInspectionId := revisitInspectionId d;
     availableInspectors := l;
     selectedInspector := selectedInspector d |}.

Definition setShowRevisitModal (b : bool) (d : Dashboard) : Dashboard :=
  {| isLoading := isLoading d; inspections := inspections d;
     categories := categories d; selectedCategory := selectedCategory d;
     selectedStatus := selectedStatus d; searchTerm := searchTerm d;
     columnFilters := columnFilters d;
     showRevisitModal := b;
     revisitInspectionId := revisitInspectionId d;
     availableInspectors := availableInspectors d;
     selectedInspector := selectedInspector d |}.

Definition setRevisitInspectionId (s : string) (d : Dashboard) : Dashboard :=
  {| isLoading := isLoading d; inspections := inspections d;
     categories := categories d; selectedCategory := selectedCategory d;
     selectedStatus := selectedStatus d; searchTerm := searchTerm d;
     columnFilters := columnFilters d;
     showRevisitModal := showRevisitModal d;
     revisitInspectionId := s;
     availableInspectors := availableInspectors d;
     selectedInspector := selectedInspector d |}.

Definition setSelectedInspector (s : string) (d : Dashboard) : Dashboard :=
  {| isLoading := isLoading d; inspections := inspections d;
     categories := categories d; selectedCategory := selectedCategory d;
     selectedStatus := selectedStatus d; searchTerm := searchTerm d;
     columnFilters := columnFilters d;
     showRevisitModal := showRevisitModal d;
     revisitInspectionId := revisitInspectionId d;
     availableInspectors := availableInspectors d;
     selectedInspector := s |}.

Definition on_ui (f : Dashboard -> Dashboard) (w : World) : World :=
  {| ui := f (ui w); rows := rows w; calls := calls w;
     alerts := alerts w; console := console w |}.

Definition set_rows (l : list Inspection) (w : World) : World :=
  {| ui := ui w; rows := l; calls := calls w;
     alerts := alerts w; console := console w |}.

Definition send (c : StoreCall) (w : World) : World :=
  {| ui := ui w; rows := rows w; calls := calls w ++ [c];
     alerts := alerts w; console := console w |}.

Definition alert (msg : string) (w : World) : World :=
  {| ui := ui w; rows := rows w; calls := calls w;
     alerts := alerts w ++ [msg]; console := console w |}.

Definition console_write (msg : string) (w : World) : World :=
  {| ui := ui w; rows := rows w; calls := calls w;
     alerts := alerts w; console := console w ++ [msg] |}.

(** The row [r] with its [status] column set to [s]. *)
Definition set_status (s : string) (r : Inspection) : Inspection :=
  {| id := id r; inspection_number := inspection_number r;
     category_id := category_id r; inspector_id := inspector_id r;
     location_name := location_name r; latitude := latitude r;
     longitude := longitude r; address := address r;
     planned_date := planned_date r; inspection_date := inspection_date r;
     status := s; form_data := form_data r;
     is_compliant := is_compliant r; requires_revisit := requires_revisit r;
     created_at := created_at r; updated_at := updated_at r;
     filled_by_name := filled_by_name r;
     anganwadi_forms := anganwadi_forms r; photos := photos r |}.

(** [.update(patch).eq('id', inspectionId)]: the patch is applied to the
    rows whose id is [inspectionId], the others are left as they are. *)
Definition update_eq_id (patch : Inspection -> Inspection)
    (inspectionId : string) (l : list Inspection) : list Inspection :=
  List.map (fun r => if String.eqb (id r) inspectionId then patch r else r) l.

(** The [catch] of [fetchInspectionsData]. *)
Definition fetchInspections_failed (message : string) (w : World) : World :=
  let w := console_write "❌ Error in fetchInspections:" w in
  if JS.includes message "Failed to fetch" then
    alert
      "Network connection error. Please check your internet connection and try again."
      w
  else if JS.includes message "JWT" then
    alert "Session expired. Please sign in again." w
  else
    alert ("Error loading inspections: " ++ message) w.

Definition fetchInspectionsData (B : Backend) (w : World) : World :=
  let w := console_write "🔍 Fetching inspections..." w in
  if negb (supabase_client B) then
    fetchInspections_failed "Supabase client not initialized" w
  else
    let w := send SelectInspections w in
    match select_inspections B (rows w) with
    | inl message =>
        fetchInspections_failed ("Database error: " ++ message)
          (console_write "Database error:" w)
    | inr data =>
        on_ui (setInspections data)
          (console_write "✅ Inspections fetched successfully:" w)
    end.

(** [fetchAllData]: the three requests are started together; the state is
    set when all three succeed. *)
Definition fetchAllData (B : Backend) (w : World) : World :=
  let w := on_ui (setIsLoading true) w in
  let w := send FetchInspectors (send FetchCategories (send GetInspections w)) in
  let w :=
    match getInspections B (rows w), fetchCategories B, fetchInspectors B with
    | inr inspectionsData, inr categoriesData, inr inspectorsData =>
        on_ui (setAvailableInspectors inspectorsData)
          (on_ui (setCategories categoriesData)
             (on_ui (setInspections inspectionsData) w))
    | _, _, _ => console_write "Error fetching data:" w
    end in
  on_ui (setIsLoading false) w.

Definition handleCompleteInspection (B : Backend) (inspectionId : string)
    (w : World) : World :=
  if negb (supabase_client B) then w
  else
    let w := send (UpdateStatus inspectionId "approved") w in
    match update_error B inspectionId (rows w) with
    | Some message =>
        alert ("Error completing inspection: " ++ message)
          (console_write "Error completing inspection:" w)
    | None =>
        let w :=
          set_rows (update_eq_id (set_status "approved") inspectionId (rows w))
            w in
        let w := fetchInspectionsData B w in
        alert "Inspection marked as completed" w
    end.

Definition handleRevisitInspection (inspectionId : string) (w : World)
    : World :=
  on_ui (setShowRevisitModal true)
    (on_ui (setSelectedInspector "")
       (on_ui (setRevisitInspectionId inspectionId) w)).

(** [handleConfirmRevisit]. The refresh started by [fetchAllData] is not
    awaited by the handler; the world returned is the one reached when it
    has settled. *)
Definition handleConfirmRevisit (B : Backend) (w : World) : World :=
  if JS.is_empty (selectedInspector (ui w)) then
    alert "Please select an inspector for revisit" w
  else
    let w := on_ui (setIsLoading true) w in
    let w :=
      send (ReassignInspection (revisitInspectionId (ui w))
              (selectedInspector (ui w))) w in
    let w :=
      match reassignInspection B (revisitInspectionId (ui w))
              (selectedInspector (ui w)) (rows w) with
      | inr rows' =>
          let w := set_rows rows' w in
          let w := alert "Inspection assigned for revisit successfully" w in
          let w := on_ui (setShowRevisitModal false) w in
          fetchAllData B w
      | inl message =>
          alert ("Error sending for revisit: " ++ message)
            (console_write "Error sending for revisit:" w)
      end in
    on_ui (setIsLoading false) w.

(** ** Criteria setters *)

Definition setSearchTerm (s : string) (d : Dashboard) : Dashboard :=
  {| isLoading := isLoading d; inspections := inspections d;
     categories := categories d; selectedCategory := selectedCategory d;
     selectedStatus := selectedStatus d; searchTerm := s;
     columnFilters := columnFilters d;
     showRevisitModal := showRevisitModal d;
     revisitInspectionId := revisitInspectionId d;
     availableInspectors := availableInspectors d;
     selectedInspector := selectedInspector d |}.

Definition setSelectedCategory (s : string) (d : Dashboard) : Dashboard :=
  {| isLoading := isLoading d; inspections := inspections d;
     categories := categories d; selectedCategory := s;
     selectedStatus := selectedStatus d; searchTerm := searchTerm d;
     columnFilters := columnFilters d;
     showRevisitModal := showRevisitModal d;
     revisitInspectionId := revisitInspectionId d;
     availableInspectors := availableInspectors d;
     selectedInspector := selectedInspector d |}.

Definition setSelectedStatus (s : string) (d : Dashboard) : Dashboard :=
  {| isLoading := isLoading d; inspections := inspections d;
     categories := categories d; selectedCategory := selectedCategory d;
     selectedStatus := s; searchTerm := searchTerm d;
     columnFilters := columnFilters d;
     showRevisitModal := showRevisitModal d;
     revisitInspectionId := revisitInspectionId d;
     availableInspectors := availableInspectors d;
     selectedInspector := selectedInspector d |}.

Definition setColumnFilters (cf : ColumnFilters) (d : Dashboard) : Dashboard :=
  {| isLoading := isLoading d; inspections := inspections d;
     categories := categories d; selectedCategory := selectedCategory d;
     selectedStatus := selectedStatus d; searchTerm := searchTerm d;
     columnFilters := cf;
     showRevisitModal := showRevisitModal d;
     revisitInspectionId := revisitInspectionId d;
     availableInspectors := availableInspectors d;
     selectedInspector := selectedInspector d |}.

(** The keys of the columns that have a filter box: [inspectionNumber],
    [location], [category], [status] and [date] in the table of recent
    inspections; [inspectionNumber], [category], [status], [date] and
    [filled_by_name] in the inspections table. *)
Inductive ColumnKey : Type :=
  | key_inspectionNumber
  | key_location
  | key_category
  | key_status
  | key_date
  | key_filled_by_name.

(** [columnFilters[col.key]] *)
Definition column (key : ColumnKey) (cf : ColumnFilters) : string :=
  match key with
  | key_inspectionNumber => cf_inspectionNumber cf
  | key_location => cf_location cf
  | key_category => cf_category cf
  | key_status => cf_status cf
  | key_date => cf_date cf
  | key_filled_by_name => cf_filled_by_name cf
  end.

(** [{...columnFilters, [col.key]: value}] *)
Definition withColumn (key : ColumnKey) (value : string) (cf : ColumnFilters)
    : ColumnFilters :=
  {| cf_inspectionNumber :=
       match key with key_inspectionNumber => value
                    | _ => cf_inspectionNumber cf end;
     cf_location :=
       match key with key_location => value | _ => cf_location cf end;
     cf_category :=
       match key with key_category => value | _ => cf_category cf end;
     cf_status :=
       match key with key_status => value | _ => cf_status cf end;
     cf_date :=
       match key with key_date => value | _ => cf_date cf end;
     cf_filled_by_name :=
       match key with key_filled_by_name => value
                    | _ => cf_filled_by_name cf end |}.

(** The [onChange] of a filter box. *)
Definition changeColumnFilter (key : ColumnKey) (value : string)
    (d : Dashboard) : Dashboard :=
  setColumnFilters (withColumn key value (columnFilters d)) d.

(** ** Table cells *)

(** The class of the status badge in the table of recent inspections, a
    chain of conditionals of its own. *)
Definition recentStatusColor (status : string) : string :=
  if String.eqb status "approved" then
    "bg-gradient-to-r from-emerald-500 to-teal-500 text-white"
  else if String.eqb status "submitted" then
    "bg-gradient-to-r from-blue-500 to-cyan-500 text-white"
  else if String.eqb status "draft" then
    "bg-gradient-to-r from-slate-400 to-slate-500 text-white"
  else if String.eqb status "in_progress" then
    "bg-gradient-to-r from-amber-500 to-orange-500 text-white"
  else if String.eqb status "rejected" then
    "bg-gradient-to-r from-rose-500 to-red-500 text-white"
  else if String.eqb status "reassigned" then
    "bg-gradient-to-r from-violet-500 to-purple-500 text-white"
  else if String.eqb status "under_review" then
    "bg-gradient-to-r from-indigo-500 to-blue-500 text-white"
  else
    "bg-gradient-to-r from-slate-400 to-slate-500 text-white".

(** [date ? new Date(date).toLocaleDateString() : otherwise] *)
Definition formatOr (env : Env) (date : option string) (otherwise : string)
    : string :=
  match date with
  | Some d => if JS.is_empty d then otherwise else toLocaleDateString env d
  | None => otherwise
  end.

(** The date cell of the table of recent inspections. *)
Definition recentDateCell (env : Env) (inspection : Inspection) : string :=
  formatOr env (inspection_date inspection) "-".

(** The date cell of the inspections table and of its cards: the
    [inspection_date], else the [planned_date], else ['-']. *)
Definition inspectionsDateCell (env : Env) (inspection : Inspection)
    : string :=
  formatOr env (inspection_date inspection)
    (formatOr env (planned_date inspection) "-").

(** The category cell of the table of recent inspections and of the
    cards: the name the category filter matches, but ['-'] for a record
    without category. *)
Definition categoryCell (env : Env) (st : Dashboard) (inspection : Inspection)
    : string :=
  match List.find (fun c => String.eqb (cat_id c) (category_id inspection))
          (categories st) with
  | Some category =>
      t env ("categories." ++ cat_form_type category) (cat_name category)
  | None => "-"
  end.

(** The category cell of the desktop inspections table: the name of the
    category, its Marathi name when [i18n.language] is [mr], and ['-']
    for a record without category. *)
Definition inspectionsCategoryCell (language : string) (st : Dashboard)
    (inspection : Inspection) : string :=
  match List.find (fun c => String.eqb (cat_id c) (category_id inspection))
          (categories st) with
  | Some category =>
      if String.eqb language "mr" then cat_name_marathi category
      else cat_name category
  | None => "-"
  end.

(** ** Photo viewer *)

(** The state of the photo modal. [selectedPhotoIndex] is an integer. *)
Record PhotoViewer : Type := {
  showPhotoModal : bool;
  selectedPhotoIndex : Z;
  viewingPhotos : list InspectionPhoto
}.

Definition setSelectedPhotoIndex (i : Z) (pv : PhotoViewer) : PhotoViewer :=
  {| showPhotoModal := showPhotoModal pv; selectedPhotoIndex := i;
     viewingPhotos := viewingPhotos pv |}.

Definition setShowPhotoModal (b : bool) (pv : PhotoViewer) : PhotoViewer :=
  {| showPhotoModal := b; selectedPhotoIndex := selectedPhotoIndex pv;
     viewingPhotos := viewingPhotos pv |}.

Definition setViewingPhotos (l : list InspectionPhoto) (pv : PhotoViewer)
    : PhotoViewer :=
  {| showPhotoModal := showPhotoModal pv;
     selectedPhotoIndex := selectedPhotoIndex pv; viewingPhotos := l |}.

(** [viewingPhotos.length] *)
Definition photoCount (pv : PhotoViewer) : Z :=
  Z.of_nat (List.length (viewingPhotos pv)).

(** The [keydown] listener, for the key [e.key]. *)
Definition handleKeyPress (key : string) (pv : PhotoViewer) : PhotoViewer :=
  if showPhotoModal pv && Z.ltb 0 (photoCount pv) then
    if String.eqb key "ArrowLeft" && Z.ltb 0 (selectedPhotoIndex pv) then
      setSelectedPhotoIndex (selectedPhotoIndex pv - 1) pv
    else if String.eqb key "ArrowRight" &&
            Z.ltb (selectedPhotoIndex pv) (photoCount pv - 1) then
      setSelectedPhotoIndex (selectedPhotoIndex pv + 1) pv
    else if String.eqb key "Escape" then
      setShowPhotoModal false pv
    else pv
  else pv.

(** What the user can do to the photo modal. *)
Inductive ViewerEvent : Type :=
  | KeyDown (key : string)
  | ClickClose
  | ClickOverlayPrevious
  | ClickOverlayNext
  | ClickPrevious
  | ClickNext.

(** The modal is rendered: [showPhotoModal && viewingPhotos.length > 0]. *)
Definition modalRendered (pv : PhotoViewer) : bool :=
  showPhotoModal pv && Z.ltb 0 (photoCount pv).

(** The effect of an event, [None] when its control is not rendered or is
    disabled. The key listener is always there; the two arrows over the
    photo are rendered at an index that has a neighbour on their side;
    the two buttons under it are disabled at the ends and clamp with
    [Math.max] and [Math.min]. *)
Definition viewerStep (ev : ViewerEvent) (pv : PhotoViewer)
    : option PhotoViewer :=
  match ev with
  | KeyDown key => Some (handleKeyPress key pv)
  | ClickClose =>
      if modalRendered pv then Some (setShowPhotoModal false pv) else None
  | ClickOverlayPrevious =>
      if modalRendered pv && Z.ltb 0 (selectedPhotoIndex pv) then
        Some (setSelectedPhotoIndex (selectedPhotoIndex pv - 1) pv)
      else None
  | ClickOverlayNext =>
      if modalRendered pv &&
         Z.ltb (selectedPhotoIndex pv) (photoCount pv - 1) then
        Some (setSelectedPhotoIndex (selectedPhotoIndex pv + 1) pv)
      else None
  | ClickPrevious =>
      if modalRendered pv && negb (Z.eqb (selectedPhotoIndex pv) 0) then
        Some (setSelectedPhotoIndex (Z.max 0 (selectedPhotoIndex pv - 1)) pv)
      else None
  | ClickNext =>
      if modalRendered pv &&
         negb (Z.eqb (selectedPhotoIndex pv) (photoCount pv - 1)) then
        Some (setSelectedPhotoIndex
                (Z.min (photoCount pv - 1) (selectedPhotoIndex pv + 1)) pv)
      else None
  end.

(** [handleViewInspectionPhotos], given the answer of the store to the
    query for the photos of the inspection (its error, or the rows in the
    order of [photo_order]). *)
Definition handleViewInspectionPhotos (env : Env) (B : Backend)
    (select_photos : string -> string + list InspectionPhoto)
    (inspection : Inspection) (s : PhotoViewer * World)
    : PhotoViewer * World :=
  let '(pv, w) := s in
  if negb (supabase_client B) then (pv, w)
  else
    match select_photos (id inspection) with
    | inl message =>
        (pv, alert ("Error loading photos: " ++ message)
               (console_write "Error loading photos:" w))
    | inr data =>
        match data with
        | [] =>
            (pv, alert (t env "fims.noPhotosFound"
                          "No photos found for this inspection") w)
        | _ :: _ =>
            (setShowPhotoModal true
               (setSelectedPhotoIndex 0 (setViewingPhotos data pv)), w)
        end
    end.

(** The viewer when the component mounts. *)
Definition initialViewer : PhotoViewer :=
  {| showPhotoModal := false; selectedPhotoIndex := 0; viewingPhotos := [] |}.

(** [viewingPhotos[selectedPhotoIndex]], [undefined] out of range. *)
Definition currentPhoto (pv : PhotoViewer) : option InspectionPhoto :=
  if Z.ltb (selectedPhotoIndex pv) 0 then None
  else nth_error (viewingPhotos pv) (Z.to_nat (selectedPhotoIndex pv)).

(** What happens to the viewer: an event of the modal, which has no
    effect where its control is missing, or a click on the photos button
    of a row, with the answer of the store to the query it sends. *)
Inductive ViewerAction : Type :=
  | Event (ev : ViewerEvent)
  | ViewPhotos (inspection : Inspection)
      (answer : string + list InspectionPhoto).

Definition viewerAct (env : Env) (B : Backend) (s : PhotoViewer * World)
    (a : ViewerAction) : PhotoViewer * World :=
  match a with
  | Event ev =>
      match viewerStep ev (fst s) with
      | Some pv => (pv, snd s)
      | None => s
      end
  | ViewPhotos inspection answer =>
      handleViewInspectionPhotos env B (fun _ => answer) inspection s
  end.

Definition viewerRun (env : Env) (B : Backend) (actions : list ViewerAction)
    (s : PhotoViewer * World) : PhotoViewer * World :=
  fold_left (viewerAct env B) actions s.

(** ** Deleting an inspection *)

(** [t(key)], without default value: the translation of [key], and as
    i18next does the key itself when the resources have none. *)
Definition t_key (env : Env) (key : string) : string := t env key key.

(** [a || b] on strings. *)
Definition or_string (a b : string) : string :=
  if JS.is_empty a then b else a.

(** [handleDeleteInspection], given the answer to the confirmation dialog
    and the [deleteInspection] of the service module, which yields the
    rows left or the message of its error; what the service module sends
    to the store is its own business and is not logged. *)
Definition handleDeleteInspection (env : Env) (B : Backend)
    (deleteInspection : string -> list Inspection -> string + list Inspection)
    (confirmed : bool) (inspectionId : string) (w : World) : World :=
  if negb confirmed then w
  else
    let w := on_ui (setIsLoading true) w in
    let w :=
      match deleteInspection inspectionId (rows w) with
      | inr rows' =>
          let w := set_rows rows' w in
          let w :=
            alert (or_string (t_key env "fims.inspectionDeletedSuccessfully")
                     "Inspection deleted successfully") w in
          fetchInspectionsData B w
      | inl message =>
          alert (or_string (t_key env "fims.errorDeletingInspection")
                   ("Error deleting inspection: " ++ message))
            (console_write "Error deleting inspection:" w)
      end in
    on_ui (setIsLoading false) w.

(** ** Tabs *)

(** The tab shown and the inspection handed to the form, with its mode. *)
Record Tabs : Type := {
  activeTab : string;
  editingInspection : option (Inspection * string)
}.

(** [userRole === 'developer'], for a role that may be [null]. *)
Definition is_developer (userRole : option string) : bool :=
  match userRole with
  | Some role => String.eqb role "developer"
  | None => false
  end.

(** The items of the navigation bar for a role:
    [userRole === 'developer'] adds the analytics item. *)
Definition desktopNavItems (userRole : option string) : list string :=
  (["dashboard"; "inspections"; "newInspection"] ++
   (if is_developer userRole then ["analytics"] else []))%list.

Definition mobileNavItems : list string :=
  ["dashboard"; "inspections"; "newInspection"].

(** One click, in what is rendered for the tab, the role and the device.
    With the analytics tab active only the analytics page is rendered,
    which can go back; otherwise the navigation bar is rendered, the
    bottom bar too on a mobile device, and the page of the tab with its
    buttons; [inspection] is the row of the button. *)
Inductive tabStep (userRole : option string) (isMobileState : bool)
    : Tabs -> Tabs -> Prop :=
  | step_analytics_back ts :
      activeTab ts = "analytics" ->
      tabStep userRole isMobileState ts
        {| activeTab := "dashboard";
           editingInspection := editingInspection ts |}
  | step_nav ts item :
      activeTab ts <> "analytics" ->
      In item (desktopNavItems userRole) ->
      tabStep userRole isMobileState ts
        {| activeTab := item; editingInspection := editingInspection ts |}
  | step_mobile_nav ts item :
      activeTab ts <> "analytics" -> isMobileState = true ->
      In item mobileNavItems ->
      tabStep userRole isMobileState ts
        {| activeTab := item; editingInspection := editingInspection ts |}
  | step_quick_new ts :
      activeTab ts = "dashboard" ->
      tabStep userRole isMobileState ts
        {| activeTab := "newInspection";
           editingInspection := editingInspection ts |}
  | step_quick_inspections ts :
      activeTab ts = "dashboard" ->
      tabStep userRole isMobileState ts
        {| activeTab := "inspections";
           editingInspection := editingInspection ts |}
  | step_quick_analytics ts :
      activeTab ts = "dashboard" -> is_developer userRole = true ->
      tabStep userRole isMobileState ts
        {| activeTab := "analytics";
           editingInspection := editingInspection ts |}
  | step_new_inspection ts :
      activeTab ts = "inspections" ->
      tabStep userRole isMobileState ts
        {| activeTab := "newInspection";
           editingInspection := editingInspection ts |}
  | step_view ts inspection :
      activeTab ts = "dashboard" \/ activeTab ts = "inspections" ->
      tabStep userRole isMobileState ts
        {| activeTab := "newInspection";
           editingInspection := Some (inspection, "view") |}
  | step_edit ts inspection :
      activeTab ts = "inspections" ->
      tabStep userRole isMobileState ts
        {| activeTab := "newInspection";
           editingInspection := Some (inspection, "edit") |}
  | step_form_back ts :
      activeTab ts = "newInspection" ->
      tabStep userRole isMobileState ts
        {| activeTab := "dashboard"; editingInspection := None |}.

(** A sequence of clicks. *)
Inductive tabSteps (userRole : option string) (isMobileState : bool)
    : Tabs -> Tabs -> Prop :=
  | tabSteps_nil ts : tabSteps userRole isMobileState ts ts
  | tabSteps_cons ts1 ts2 ts3 :
      tabStep userRole isMobileState ts1 ts2 ->
      tabSteps userRole isMobileState ts2 ts3 ->
      tabSteps userRole isMobileState ts1 ts3.

(** The tabs when the component mounts. *)
Definition initialTabs : Tabs :=
  {| activeTab := "dashboard"; editingInspection := None |}.

(** ** Device detection *)

(** What the detection reads of [window] and [navigator]. *)
Record Window : Type := {
  innerWidth : Z;
  userAgent : string;
  vendor : string;
  opera : option string
}.

(** [/w1|w2|.../i.test(s)] for words of ASCII letters and spaces: with
    the flag [i] (and without [u]) a character of the pattern matches the
    characters that have its upper case, and a character outside ASCII
    never stands for an ASCII one, so a word matches where it occurs up
    to the case of the ASCII letters. *)
Definition test_any_nocase (words : list string) (s : string) : bool :=
  existsb
    (fun w => JS.includes (JS.lowercase_ascii s) (JS.lowercase_ascii w))
    words.

(** [isMobile], [false] where there is no [window]. *)
Definition isMobile (window : option Window) : bool :=
  match window with
  | None => false
  | Some w =>
      Z.leb (innerWidth w) 768 ||
      test_any_nocase
        ["Android"; "webOS"; "iPhone"; "iPad"; "iPod"; "BlackBerry";
         "IEMobile"; "Opera Mini"] (userAgent w)
  end.

(** [checkMobile]: the value it hands to [setIsMobileState], [None] when
    it throws: [userAgent] is
    [navigator.userAgent || navigator.vendor || window.opera], and
    [toLowerCase] of [undefined] is a [TypeError]. *)
Definition checkMobile (env : Env) (w : Window) : option bool :=
  let userAgent :=
    if negb (JS.is_empty (userAgent w)) then Some (userAgent w)
    else if negb (JS.is_empty (vendor w)) then Some (vendor w)
    else opera w in
  match userAgent with
  | None => None
  | Some ua =>
      Some (test_any_nocase
              ["android"; "webos"; "iphone"; "ipad"; "ipod"; "blackberry";
               "iemobile"; "opera mini"] (toLowerCase env ua) ||
            Z.leb (innerWidth w) 768)
  end.

(** * Notions of the specification *)

(** [needle] occurs in [hay] as a contiguous block. *)
Definition is_substring (needle hay : string) : Prop :=
  exists pre post, hay = pre ++ needle ++ post.

(** A case-insensitive substring match: the criterion occurs in the
    value when both are brought to lower case. *)
Definition matches_nocase (env : Env) (criterion value : string) : Prop :=
  is_substring (toLowerCase env criterion) (toLowerCase env value).

(** The same against a value that may be absent; an absent value is no
    match. *)
Definition field_matches_nocase (env : Env) (criterion : string)
    (field : option string) : Prop :=
  exists v, field = Some v /\ matches_nocase env criterion v.

(** The resolved, localized category name of a record: the name of the
    first category that has the [category_id] of the record, under the
    key of its form type; the empty placeholder when the [category_id]
    is dangling. *)
Definition resolved_category_name (env : Env) (st : Dashboard)
    (r : Inspection) (name : string) : Prop :=
  (exists before category after,
     categories st = (before ++ category :: after)%list /\
     Forall (fun c => cat_id c <> category_id r) before /\
     cat_id category = category_id r /\
     name = t env ("categories." ++ cat_form_type category)
              (cat_name category)) \/
  (Forall (fun c => cat_id c <> category_id r) (categories st) /\ name = "").

(** The resolved status label: what the lookup resolves for the key of
    the status, the upper-cased raw status when it resolves nothing. *)
Definition resolved_status_label (env : Env) (s label : string) : Prop :=
  translations env !! ("statuses." ++ s) = Some label \/
  (translations env !! ("statuses." ++ s) = None /\
   label = toUpperCase env s).

(** The date of a record: its [inspection_date], its [planned_date] when
    it has no [inspection_date]. *)
Definition record_date (r : Inspection) (d : string) : Prop :=
  d <> "" /\
  (inspection_date r = Some d \/
   (inspection_date r = None \/ inspection_date r = Some "") /\
   planned_date r = Some d).

(** [round(x)] with halves rounded up, for the rational [num / den]
    ([den > 0]): the integer [n] with [n - 1/2 <= num / den < n + 1/2]. *)
Definition round_half_up (num den : Z) : Z :=
  Z.div (2 * num + den) (2 * den).

(** [round(completed / total * 100)], [0] when [total = 0]. *)
Definition completion_rate_spec (completed total : nat) : Z :=
  if Nat.eqb total 0 then 0%Z
  else round_half_up (100 * Z.of_nat completed) (Z.of_nat total).

(** The axes of the filter, as the specification lists them: the search
    term, the category and status selects, and the six column filters,
    each against the display value of its column. [date_match] is the
    match of the date column. *)
Definition axes_hold (date_match : string -> string -> Prop) (env : Env)
    (st : Dashboard) (r : Inspection) : Prop :=
  (searchTerm st = "" \/
   field_matches_nocase env (searchTerm st) (location_name r) \/
   field_matches_nocase env (searchTerm st) (inspection_number r)) /\
  (selectedCategory st = "" \/ category_id r = selectedCategory st) /\
  (selectedStatus st = "" \/ status r = selectedStatus st) /\
  (cf_inspectionNumber (columnFilters st) = "" \/
   field_matches_nocase env (cf_inspectionNumber (columnFilters st))
     (inspection_number r)) /\
  (cf_location (columnFilters st) = "" \/
   field_matches_nocase env (cf_location (columnFilters st))
     (location_name r)) /\
  (cf_category (columnFilters st) = "" \/
   exists name,
     resolved_category_name env st r name /\
     matches_nocase env (cf_category (columnFilters st)) name) /\
  (cf_status (columnFilters st) = "" \/
   exists label,
     resolved_status_label env (status r) label /\
     matches_nocase env (cf_status (columnFilters st)) label) /\
  (cf_date (columnFilters st) = "" \/
   exists d,
     record_date r d /\
     date_match (cf_date (columnFilters st)) (toLocaleDateString env d)) /\
  (cf_filled_by_name (columnFilters st) = "" \/
   field_matches_nocase env (cf_filled_by_name (columnFilters st))
     (filled_by_name r)).

(** Every axis matches as the specification describes it: each column
    filter, the one of the date as well, is a case-insensitive substring
    match. *)
Definition spec_axes (env : Env) (st : Dashboard) (r : Inspection) : Prop :=
  axes_hold (matches_nocase env) env st r.

(** The same with the date column matched as it is written. *)
Definition axes_with_exact_date (env : Env) (st : Dashboard) (r : Inspection)
    : Prop :=
  axes_hold is_substring env st r.

(** No criterion is set. *)
Definition no_criteria (st : Dashboard) : Prop :=
  searchTerm st = "" /\ selectedCategory st = "" /\ selectedStatus st = "" /\
  columnFilters st =
    {| cf_inspectionNumber := ""; cf_location := ""; cf_category := "";
       cf_status := ""; cf_date := ""; cf_filled_by_name := "" |}.

(** The statuses of the three buckets of the counters. *)
Definition bucket_statuses : list string :=
  [ "planned"; "in_progress"; "draft"; "approved"; "submitted" ].

Definition is_pending (i : Inspection) : bool :=
  array_includes ["planned"; "in_progress"; "draft"] (status i).
Definition is_completed (i : Inspection) : bool :=
  String.eqb (status i) "approved".
Definition is_submitted (i : Inspection) : bool :=
  String.eqb (status i) "submitted".

(** The rate as a function of the two counters it is computed from. *)
Definition rate_of_counts (completed total : nat) : JS.number :=
  if Nat.eqb total 0 then JS.of_Z 0
  else
    JS.Math_round
      (JS.mul (JS.div (JS.of_nat completed) (JS.of_nat total)) (JS.of_Z 100)).

(** Every field but [status] is the same in the two rows. *)
Definition same_but_status (r r' : Inspection) : Prop :=
  id r' = id r /\ inspection_number r' = inspection_number r /\
  category_id r' = category_id r /\ inspector_id r' = inspector_id r /\
  location_name r' = location_name r /\ latitude r' = latitude r /\
  longitude r' = longitude r /\ address r' = address r /\
  planned_date r' = planned_date r /\
  inspection_date r' = inspection_date r /\ form_data r' = form_data r /\
  is_compliant r' = is_compliant r /\
  requires_revisit r' = requires_revisit r /\
  created_at r' = created_at r /\ updated_at r' = updated_at r /\
  filled_by_name r' = filled_by_name r /\
  anganwadi_forms r' = anganwadi_forms r /\ photos r' = photos r.

(** * Sample data *)

(** Sample resources: a label for each status of the enum. *)
Definition sample_translations : gmap string string :=
  list_to_map
    [ ("statuses.draft", "Draft"); ("statuses.planned", "Planned");
      ("statuses.in_progress", "In Progress");
      ("statuses.submitted", "Submitted");
      ("statuses.under_review", "Under Review");
      ("statuses.approved", "Approved"); ("statuses.rejected", "Rejected");
      ("statuses.reassigned", "Reassigned") ].

(** A date formatter that knows a few dates in their en-US form and, as
    [Date] does, answers [Invalid Date] for a string it cannot read. *)
Definition sample_toLocaleDateString (s : string) : string :=
  if String.eqb s "2024-01-05" then "1/5/2024"
  else if String.eqb s "2024-02-10" then "2/10/2024"
  else "Invalid Date".

(** The sample environment. Its texts are ASCII, on which the case
    mappings of the engine are those of the ASCII letters. *)
Definition sample_env : Env :=
  {| translations := sample_translations;
     toLocaleDateString := sample_toLocaleDateString;
     toLowerCase := JS.lowercase_ascii;
     toUpperCase := JS.uppercase_ascii |}.

Definition sample_inspection (n stat : string) (date planned : option string)
    : Inspection :=
  {| id := "insp-" ++ n; inspection_number := Some ("INS-" ++ n);
     category_id := "cat-1"; inspector_id := "user-7";
     location_name := Some "Ward Office"; latitude := None; longitude := None;
     address := None; planned_date := planned; inspection_date := date;
     status := stat; form_data := JNull; is_compliant := None;
     requires_revisit := false; created_at := "2024-01-01T00:00:00Z";
     updated_at := "2024-01-01T00:00:00Z"; filled_by_name := Some "Asha";
     anganwadi_forms := None; photos := None |}.

Definition sample_categories : list Category :=
  [ {| cat_id := "cat-1"; cat_name := "Office"; cat_name_marathi := "";
       cat_description := ""; cat_form_type := "office";
       cat_is_active := true |} ].

Definition no_column_filters : ColumnFilters :=
  {| cf_inspectionNumber := ""; cf_location := ""; cf_category := "";
     cf_status := ""; cf_date := ""; cf_filled_by_name := "" |}.

Definition sample_dashboard (l : list Inspection) : Dashboard :=
  {| isLoading := false; inspections := l; categories := sample_categories;
     selectedCategory := ""; selectedStatus := ""; searchTerm := "";
     columnFilters := no_column_filters; showRevisitModal := false;
     revisitInspectionId := ""; availableInspectors := [];
     selectedInspector := "" |}.

(** The records of the scenario of the specification. *)
Definition scenario_records : list Inspection :=
  [ sample_inspection "1" "draft" None (Some "2024-01-05");
    sample_inspection "2" "approved" (Some "2024-01-05") None;
    sample_inspection "3" "submitted" (Some "2024-02-10") None;
    sample_inspection "4" "approved" (Some "2024-02-10") None ].

Definition with_date_filter (f : string) (l : list Inspection) : Dashboard :=
  {| isLoading := false; inspections := l; categories := sample_categories;
     selectedCategory := ""; selectedStatus := ""; searchTerm := "";
     columnFilters :=
       {| cf_inspectionNumber := ""; cf_location := ""; cf_category := "";
          cf_status := ""; cf_date := f; cf_filled_by_name := "" |};
     showRevisitModal := false; revisitInspectionId := "";
     availableInspectors := []; selectedInspector := "" |}.

(** A record whose date is not a date. *)
Definition undated_record : Inspection :=
  sample_inspection "9" "draft" (Some "n/a") None.

(** A record with a date. *)
Definition dated_record : Inspection :=
  sample_inspection "2" "approved" (Some "2024-01-05") None.

(** An environment whose resources also hold a label for [completed]. *)
Definition wider_env : Env :=
  {| translations := <["statuses.completed" := "Completed"]> sample_translations;
     toLocaleDateString := sample_toLocaleDateString;
     toLowerCase := JS.lowercase_ascii;
     toUpperCase := JS.uppercase_ascii |}.

(** A dashboard with every criterion set. *)
Definition filtering_dashboard (l : list Inspection) : Dashboard :=
  {| isLoading := false; inspections := l; categories := sample_categories;
     selectedCategory := "cat-2"; selectedStatus := "approved";
     searchTerm := "ward";
     columnFilters :=
       {| cf_inspectionNumber := "INS"; cf_location := "office";
          cf_category := "off"; cf_status := "app"; cf_date := "1/5";
          cf_filled_by_name := "asha" |};
     showRevisitModal := false; revisitInspectionId := "";
     availableInspectors := []; selectedInspector := "" |}.

(** Modelled from the spec: [reassignInspection] of the service module is
    not part of the sources. The specification has it set the inspector
    of the record and hand the record back for fieldwork. *)
Definition reassign_row (inspectorId : string) (r : Inspection) : Inspection :=
  {| id := id r; inspection_number := inspection_number r;
     category_id := category_id r; inspector_id := inspectorId;
     location_name := location_name r; latitude := latitude r;
     longitude := longitude r; address := address r;
     planned_date := planned_date r; inspection_date := inspection_date r;
     status := "in_progress"; form_data := form_data r;
     is_compliant := is_compliant r; requires_revisit := requires_revisit r;
     created_at := created_at r; updated_at := updated_at r;
     filled_by_name := filled_by_name r;
     anganwadi_forms := anganwadi_forms r; photos := photos r |}.

(** A store in which every request succeeds. *)
Definition sample_backend : Backend :=
  {| supabase_client := true;
     update_error := fun _ _ => None;
     select_inspections := fun l => inr l;
     reassignInspection :=
       fun inspectionId inspectorId l =>
         inr (update_eq_id (reassign_row inspectorId) inspectionId l);
     getInspections := fun l => inr l;
     fetchCategories := inr sample_categories;
     fetchInspectors := inr [] |}.

Definition sample_world : World :=
  {| ui := sample_dashboard scenario_records; rows := scenario_records;
     calls := []; alerts := []; console := [] |}.

(** Forty records, twenty-three of them approved. *)
Definition forty_records : list Inspection :=
  (repeat (sample_inspection "a" "approved" (Some "2024-01-05") None) 23 ++
   repeat (sample_inspection "b" "draft" None (Some "2024-02-10")) 17)%list.

(** Three photos of an inspection, in their order. *)
Definition sample_photo (n : Z) (name : string) : InspectionPhoto :=
  {| photo_id := "photo-" ++ name; photo_url := "https://store/" ++ name;
     photo_name := Some name; photo_description := None; photo_order := n;
     uploaded_at := "2024-01-05T10:00:00Z" |}.

Definition sample_photos : list InspectionPhoto :=
  [ sample_photo 0 "gate.jpg"; sample_photo 1 "kitchen.jpg";
    sample_photo 2 "register.jpg" ].

(** A session with the viewer: the photos of a record are opened, the
    user goes forward with the key, the button and the arrow, tries the
    disabled button at the last photo and goes one back. *)
Definition sample_viewer_session : list ViewerAction :=
  [ ViewPhotos (sample_inspection "2" "approved" (Some "2024-01-05") None)
      (inr sample_photos);
    Event (KeyDown "ArrowRight"); Event ClickNext; Event ClickOverlayNext;
    Event ClickNext; Event (KeyDown "ArrowLeft") ].

(** A wide window of a phone browser. *)
Definition sample_window : Window :=
  {| innerWidth := 1024;
     userAgent := "Mozilla/5.0 (Linux; Android 14) Mobile Safari/537.36";
     vendor := "Google Inc."; opera := None |}.

(** The viewer open on the second of the three photos. *)
Definition sample_viewer : PhotoViewer :=
  {| showPhotoModal := true; selectedPhotoIndex := 1;
     viewingPhotos := sample_photos |}.

(** * Properties *)

(** ** Strings *)

Lemma prefix_spec (p s : string) :
  String.prefix p s = true <-> exists post, s = p ++ post.
Proof.
  revert p. induction s as [|d s IH]; intros [|c p]; simpl.
  - split; [intros _; exists ""; reflexivity | reflexivity].
  - split; [discriminate | intros [post H]; discriminate].
  - split; [intros _; exists (String d s); reflexivity | reflexivity].
  - destruct (Ascii.ascii_dec c d) as [->|Hne].
    + rewrite IH. split; intros [post H]; exists post.
      * now rewrite H.
      * now inversion H.
    + split; [discriminate | intros [post H]; inversion H; congruence].
Qed.

Lemma includes_spec (hay needle : string) :
  JS.includes hay needle = true <-> is_substring needle hay.
Proof.
  unfold is_substring. induction hay as [|c hay IH]; cbn [JS.includes].
  - rewrite orb_false_r, prefix_spec. split.
    + intros [post H]. exists "", post. exact H.
    + intros [[|a pre] [post H]]; [exists post; exact H | discriminate].
  - rewrite orb_true_iff, prefix_spec, IH. split.
    + intros [[post H] | [pre [post H]]].
      * exists "", post. exact H.
      * exists (String c pre), post. simpl. now rewrite H.
    + intros [[|a pre] [post H]].
      * left. exists post. exact H.
      * right. exists pre, post. simpl in H. now inversion H.
Qed.

Lemma string_app_assoc (a b c : string) : (a ++ b) ++ c = a ++ b ++ c.
Proof.
  induction a as [|x a IH]; [reflexivity|].
  change (String x ((a ++ b) ++ c) = String x (a ++ b ++ c)). now rewrite IH.
Qed.

Lemma is_substring_trans (a b c : string) :
  is_substring a b -> is_substring b c -> is_substring a c.
Proof.
  intros (p & q & ->) (p' & q' & ->).
  exists (p' ++ p), (q ++ q'). now rewrite !string_app_assoc.
Qed.

Lemma substring_of_empty (v : string) : is_substring v "" -> v = "".
Proof.
  intros (p & q & H). destruct p; [|discriminate]. destruct v; [reflexivity|].
  discriminate.
Qed.

(** ** Status display mappings *)

Lemma switch_no_case {A : Type} (cases : list (list string * A)) (dflt : A)
    (x : string) :
  (forall c, In c cases -> ~ In x (fst c)) -> switch cases dflt x = dflt.
Proof.
  intros H. unfold switch.
  destruct (List.find _ cases) as [c|] eqn:E; [|reflexivity].
  apply find_some in E as [Hin Hex].
  apply existsb_exists in Hex as (y & Hy & Heq).
  apply String.eqb_eq in Heq. subst y. now destruct (H c Hin).
Qed.

Lemma no_case_planned :
  forall c, In c getStatusColor_cases -> ~ In "planned" (fst c).
Proof.
  intros c Hc. simpl in Hc.
  repeat (destruct Hc as [<-|Hc]; [simpl; intuition discriminate|]).
  destruct Hc.
Qed.

Lemma no_case_in_progress :
  forall c, In c getStatusColor_cases -> ~ In "in_progress" (fst c).
Proof.
  intros c Hc. simpl in Hc.
  repeat (destruct Hc as [<-|Hc]; [simpl; intuition discriminate|]).
  destruct Hc.
Qed.

(** C10: ['planned'] and ['in_progress'] are labels of no [case] of
    [getStatusColor]; both get the class string of the [default] branch,
    which is what any status without a [case] of its own gets. *)
Theorem C10_planned_in_progress_get_default :
  (forall c, In c getStatusColor_cases ->
     ~ In "planned" (fst c) /\ ~ In "in_progress" (fst c)) /\
  getStatusColor "planned" = getStatusColor_default /\
  getStatusColor "in_progress" = getStatusColor_default /\
  (forall s, (forall c, In c getStatusColor_cases -> ~ In s (fst c)) ->
     getStatusColor s = getStatusColor "planned" /\
     getStatusColor s = getStatusColor "in_progress").
Proof.
  split; [|split; [|split]].
  - intros c Hc. split; [now apply no_case_planned | now apply no_case_in_progress].
  - reflexivity.
  - reflexivity.
  - intros s Hs. unfold getStatusColor at 1 3.
    rewrite (switch_no_case _ _ _ Hs). split; reflexivity.
Qed.

Lemma getStatusText_translated (env : Env) (s lbl : string) :
  translations env !! ("statuses." ++ s) = Some lbl -> getStatusText env s = lbl.
Proof. intros H. unfold getStatusText, t. now rewrite H. Qed.

Lemma getStatusText_fallback (env : Env) (s : string) :
  translations env !! ("statuses." ++ s) = None ->
  getStatusText env s = toUpperCase env s.
Proof. intros H. unfold getStatusText, t. now rewrite H. Qed.

Lemma getStatusText_resolved (env : Env) (s label : string) :
  resolved_status_label env s label <-> getStatusText env s = label.
Proof.
  unfold resolved_status_label, getStatusText, t.
  destruct (translations env !! ("statuses." ++ s)) as [l|]; cbn; split.
  - intros [[= ->] | [[=] _]]. reflexivity.
  - intros ->. now left.
  - intros [[=] | [_ ->]]. reflexivity.
  - intros <-. now right.
Qed.

(** C8, as the code has it: [getStatusText] gives every status string a
    label, and the label is what the lookup of the i18n library resolves
    for the key [statuses.] followed by the status, whether the status
    is of the enum or not, and the upper-cased raw status exactly when
    the lookup resolves nothing for the key. *)
Theorem C8_status_label_resolved_or_upper_cased (env : Env) (s : string) :
  (forall label,
     translations env !! ("statuses." ++ s) = Some label ->
     getStatusText env s = label) /\
  (translations env !! ("statuses." ++ s) = None ->
   getStatusText env s = toUpperCase env s) /\
  (forall label,
     resolved_status_label env s label <-> getStatusText env s = label).
Proof.
  split; [intros label; apply getStatusText_translated|].
  split; [apply getStatusText_fallback|].
  intros label. apply getStatusText_resolved.
Qed.

(** A status outside the enum does not fall back to its upper-cased raw
    string when the lookup resolves its key: [completed], a status
    [getStatusColor] has a case for, gets the label the resources hold
    for it. *)
Lemma C8_label_for_status_outside_enum :
  ~ In "completed" status_enum /\
  translations wider_env !! "statuses.completed" = Some "Completed" /\
  getStatusText wider_env "completed" = "Completed" /\
  toUpperCase wider_env "completed" = "COMPLETED" /\
  getStatusText wider_env "completed" <> toUpperCase wider_env "completed".
Proof.
  split; [cbn; intuition discriminate|].
  split; [reflexivity|]. split; [reflexivity|]. split; [reflexivity|].
  discriminate.
Qed.

(** ** The record filter *)

(** Unfolds the nine axes of the filter. *)
Ltac unfold_axes :=
  unfold matchesSearch, matchesCategory, matchesStatus,
    matchesInspectionNumber, matchesLocation, matchesCategoryFilter,
    matchesStatusFilter, matchesDateFilter, matchesFilledBy.

Lemma is_empty_true (s : string) : JS.is_empty s = true <-> s = "".
Proof. destruct s; simpl; split; congruence. Qed.

(** An axis is a disjunction whose first case is the empty criterion. *)
Ltac axis_spec := rewrite orb_true_iff, is_empty_true.

Lemma passes_setInspections (env : Env) (st : Dashboard) (l : list Inspection)
    (r : Inspection) :
  passes env (setInspections l st) r = passes env st r.
Proof. reflexivity. Qed.

Lemma filter_sublist {A : Type} (f : A -> bool) (l : list A) :
  sublist (List.filter f l) l.
Proof.
  induction l as [|a l IH]; simpl; [constructor|].
  destruct (f a); now constructor.
Qed.

Lemma includes_nocase_spec (env : Env) (field : option string)
    (term : string) :
  includes_nocase env field term = true <->
  field_matches_nocase env term field.
Proof.
  unfold includes_nocase, field_matches_nocase, matches_nocase.
  destruct field as [v|].
  - rewrite includes_spec. split.
    + intros H. now exists v.
    + now intros (v' & [= <-] & H).
  - split; [discriminate | now intros (v & [=] & _)].
Qed.

Lemma find_first {A : Type} (f : A -> bool) (l : list A) (x : A) :
  List.find f l = Some x <->
  exists before after,
    l = (before ++ x :: after)%list /\
    Forall (fun y => f y = false) before /\ f x = true.
Proof.
  induction l as [|a l IH]; cbn [List.find].
  - split; [discriminate|]. intros ([|? ?] & after & H & _); discriminate.
  - destruct (f a) eqn:E.
    + split.
      * intros [= <-]. exists [], l. repeat split; [constructor | exact E].
      * intros ([|b before] & after & H & Hb & Hx).
        -- now injection H as <- _.
        -- injection H as <- _. inversion Hb; congruence.
    + rewrite IH. split.
      * intros (before & after & -> & Hb & Hx).
        exists (a :: before), after. repeat split; [now constructor | exact Hx].
      * intros ([|b before] & after & H & Hb & Hx).
        -- injection H as <- _. congruence.
        -- injection H as <- ->. inversion Hb; subst.
           now exists before, after.
Qed.

Lemma find_nothing {A : Type} (f : A -> bool) (l : list A) :
  List.find f l = None <-> Forall (fun y => f y = false) l.
Proof.
  induction l as [|a l IH]; cbn [List.find].
  - split; [constructor | reflexivity].
  - destruct (f a) eqn:E.
    + split; [discriminate | intros H; inversion H; congruence].
    + rewrite IH. split; [now constructor | intros H; now inversion H].
Qed.

Lemma other_category (r : Inspection) (l : list Category) :
  Forall (fun c => String.eqb (cat_id c) (category_id r) = false) l <->
  Forall (fun c => cat_id c <> category_id r) l.
Proof.
  split; intros H; induction H; constructor; auto;
    now apply String.eqb_neq.
Qed.

(** The name the filter reads for a record is its resolved category
    name, and the only one. *)
Lemma categoryName_resolved (env : Env) (st : Dashboard) (r : Inspection)
    (name : string) :
  resolved_category_name env st r name <-> name = categoryName env st r.
Proof.
  unfold resolved_category_name, categoryName.
  destruct (List.find _ (categories st)) as [c|] eqn:E.
  - apply find_first in E as (before & after & Hl & Hb & Hc).
    apply other_category in Hb. apply String.eqb_eq in Hc. split.
    + intros [(b' & c' & a' & Hl' & Hb' & Hc' & ->) | [Hall _]].
      * assert (Hf : List.find
                       (fun c => String.eqb (cat_id c) (category_id r))
                       (categories st) = Some c').
        { apply find_first. exists b', a'.
          split; [exact Hl'|]. split; [now apply other_category|].
          now apply String.eqb_eq. }
        assert (Hf' : List.find
                        (fun c => String.eqb (cat_id c) (category_id r))
                        (categories st) = Some c).
        { apply find_first. exists before, after.
          split; [exact Hl|]. split; [now apply other_category|].
          now apply String.eqb_eq. }
        rewrite Hf in Hf'. now injection Hf' as ->.
      * exfalso. rewrite Hl in Hall. apply Forall_app in Hall as [_ Hall].
        inversion Hall; contradiction.
    + intros ->. left. now exists before, c, after.
  - apply find_nothing, other_category in E. split.
    + intros [(b' & c' & a' & Hl' & _ & Hc' & _) | [_ ->]]; [|reflexivity].
      exfalso. rewrite Hl' in E. apply Forall_app in E as [_ E].
      inversion E; contradiction.
    + intros ->. now right.
Qed.

Lemma inspectionDate_spec (r : Inspection) :
  (forall d, inspection_date r = Some d -> d <> "" ->
             inspectionDate r = Some d) /\
  (inspection_date r = None \/ inspection_date r = Some "" ->
   inspectionDate r = planned_date r).
Proof.
  unfold inspectionDate, JS.or_else, JS.truthy. split.
  - intros d -> Hd. destruct d; [congruence | reflexivity].
  - intros [-> | ->]; reflexivity.
Qed.

Lemma matchesDateFilter_spec (env : Env) (st : Dashboard) (r : Inspection) :
  matchesDateFilter env st r = true <->
  cf_date (columnFilters st) = "" \/
  exists d, inspectionDate r = Some d /\ d <> "" /\
            is_substring (cf_date (columnFilters st)) (toLocaleDateString env d).
Proof.
  unfold matchesDateFilter. rewrite orb_true_iff, is_empty_true.
  destruct (inspectionDate r) as [d|].
  - rewrite andb_true_iff, negb_true_iff, includes_spec.
    rewrite <- not_true_iff_false, is_empty_true. split.
    + intros [H | [H1 H2]]; [now left | right; now exists d].
    + intros [H | (d' & [= <-] & H1 & H2)]; [now left | now right].
  - split.
    + intros [H | H]; [now left | discriminate].
    + intros [H | (d & [=] & _)]. now left.
Qed.

Lemma record_date_spec (r : Inspection) (d : string) :
  record_date r d <-> inspectionDate r = Some d /\ d <> "".
Proof.
  unfold record_date, inspectionDate, JS.or_else, JS.truthy.
  destruct (inspection_date r) as [[|c x]|]; cbn; split.
  - intros (Hd & [[= <-] | [_ H]]); [contradiction | now split].
  - intros [H Hd]. split; [exact Hd | right; split; [now right | exact H]].
  - intros (Hd & [[= <-] | [[H|H] _]]); try discriminate. now split.
  - intros [[= <-] Hd]. split; [exact Hd | now left].
  - intros (Hd & [H | [_ H]]); [discriminate | now split].
  - intros [H Hd]. split; [exact Hd | right; split; [now left | exact H]].
Qed.

(** What every axis of the code is: its empty criterion, or the match
    the specification describes against the display value of its column,
    with the one difference that the date column is matched as written. *)
Lemma axes_spec (env : Env) (st : Dashboard) (r : Inspection) :
  (matchesSearch env st r = true <->
   searchTerm st = "" \/
   field_matches_nocase env (searchTerm st) (location_name r) \/
   field_matches_nocase env (searchTerm st) (inspection_number r)) /\
  (matchesCategory st r = true <->
   selectedCategory st = "" \/ category_id r = selectedCategory st) /\
  (matchesStatus st r = true <->
   selectedStatus st = "" \/ status r = selectedStatus st) /\
  (matchesInspectionNumber env st r = true <->
   cf_inspectionNumber (columnFilters st) = "" \/
   field_matches_nocase env (cf_inspectionNumber (columnFilters st))
     (inspection_number r)) /\
  (matchesLocation env st r = true <->
   cf_location (columnFilters st) = "" \/
   field_matches_nocase env (cf_location (columnFilters st))
     (location_name r)) /\
  (matchesCategoryFilter env st r = true <->
   cf_category (columnFilters st) = "" \/
   exists name,
     resolved_category_name env st r name /\
     matches_nocase env (cf_category (columnFilters st)) name) /\
  (matchesStatusFilter env st r = true <->
   cf_status (columnFilters st) = "" \/
   exists label,
     resolved_status_label env (status r) label /\
     matches_nocase env (cf_status (columnFilters st)) label) /\
  (matchesDateFilter env st r = true <->
   cf_date (columnFilters st) = "" \/
   exists d,
     record_date r d /\
     is_substring (cf_date (columnFilters st)) (toLocaleDateString env d)) /\
  (matchesFilledBy env st r = true <->
   cf_filled_by_name (columnFilters st) = "" \/
   field_matches_nocase env (cf_filled_by_name (columnFilters st))
     (filled_by_name r)).
Proof.
  split.
  { unfold matchesSearch.
    rewrite !orb_true_iff, is_empty_true, !includes_nocase_spec. tauto. }
  split.
  { unfold matchesCategory. axis_spec. now rewrite String.eqb_eq. }
  split.
  { unfold matchesStatus. axis_spec. now rewrite String.eqb_eq. }
  split.
  { unfold matchesInspectionNumber.
    axis_spec. now rewrite includes_nocase_spec. }
  split.
  { unfold matchesLocation. axis_spec. now rewrite includes_nocase_spec. }
  split.
  { unfold matchesCategoryFilter. axis_spec. rewrite includes_spec.
    unfold matches_nocase. split; (intros [H|H]; [now left | right]).
    - exists (categoryName env st r).
      split; [now apply categoryName_resolved | exact H].
    - destruct H as (name & Hn & H).
      apply categoryName_resolved in Hn. now subst name. }
  split.
  { unfold matchesStatusFilter. axis_spec. rewrite includes_spec.
    unfold matches_nocase. split; (intros [H|H]; [now left | right]).
    - exists (getStatusText env (status r)).
      split; [now apply getStatusText_resolved | exact H].
    - destruct H as (label & Hl & H).
      apply getStatusText_resolved in Hl. now subst label. }
  split.
  { rewrite matchesDateFilter_spec.
    split; (intros [H|(d & H)]; [now left | right; exists d]).
    - destruct H as (Hd & Hne & H). split; [|exact H].
      now apply record_date_spec.
    - destruct H as (Hd & H). apply record_date_spec in Hd as [Hd Hne].
      auto. }
  unfold matchesFilledBy. axis_spec. now rewrite includes_nocase_spec.
Qed.

Lemma passes_spec (env : Env) (st : Dashboard) (r : Inspection) :
  passes env st r = true <-> axes_with_exact_date env st r.
Proof.
  unfold passes, axes_with_exact_date, axes_hold. rewrite !andb_true_iff.
  destruct (axes_spec env st r)
    as (H1 & H2 & H3 & H4 & H5 & H6 & H7 & H8 & H9).
  split.
  - intros ((((((((A1 & A2) & A3) & A4) & A5) & A6) & A7) & A8) & A9).
    split; [now apply H1|]. split; [now apply H2|]. split; [now apply H3|].
    split; [now apply H4|]. split; [now apply H5|]. split; [now apply H6|].
    split; [now apply H7|]. split; [now apply H8|]. now apply H9.
  - intros (A1 & A2 & A3 & A4 & A5 & A6 & A7 & A8 & A9).
    repeat (match goal with |- _ /\ _ => split end).
    + now apply H1.
    + now apply H2.
    + now apply H3.
    + now apply H4.
    + now apply H5.
    + now apply H6.
    + now apply H7.
    + now apply H8.
    + now apply H9.
Qed.

(** Apart from the case of the date column, the filter is the stable
    conjunction of the specification: the result is a subsequence of the
    input, a record is in it exactly when it is in the input and every
    axis matches, and the filter of a concatenation is the concatenation
    of the filters, so each occurrence is kept or dropped on its own. *)
Lemma getFilteredInspections_spec (env : Env) (st : Dashboard) :
  sublist (getFilteredInspections env st) (inspections st) /\
  (forall r, In r (getFilteredInspections env st) <->
             In r (inspections st) /\ axes_with_exact_date env st r) /\
  (forall l1 l2,
     getFilteredInspections env (setInspections (l1 ++ l2)%list st) =
     (getFilteredInspections env (setInspections l1 st) ++
      getFilteredInspections env (setInspections l2 st))%list).
Proof.
  unfold getFilteredInspections.
  split; [apply filter_sublist|].
  split; [intros r; rewrite filter_In, passes_spec; tauto|].
  intros l1 l2. simpl. apply List.filter_app.
Qed.

(** C1, at a record whose date cannot be read and the date filter
    [invalid]: the record is in the input and every axis of the
    specification matches it, the date axis because [invalid] occurs in
    [Invalid Date] up to case, while the other record of the input does
    not match; the specification has the filter return the first record
    alone, and the code returns no record. *)
Theorem C1_filter_drops_record_matching_every_axis :
  In undated_record
    (inspections (with_date_filter "invalid" [undated_record; dated_record])) /\
  spec_axes sample_env
    (with_date_filter "invalid" [undated_record; dated_record])
    undated_record /\
  ~ spec_axes sample_env
      (with_date_filter "invalid" [undated_record; dated_record])
      dated_record /\
  getFilteredInspections sample_env
    (with_date_filter "invalid" [undated_record; dated_record]) = [].
Proof.
  split; [left; reflexivity|]. split; [|split; [|reflexivity]].
  - unfold spec_axes, axes_hold. cbn [with_date_filter searchTerm
      selectedCategory selectedStatus columnFilters cf_inspectionNumber
      cf_location cf_category cf_status cf_date cf_filled_by_name].
    repeat (split; [now left|]). split; [|now left].
    right. exists "n/a". split.
    + split; [discriminate | left; reflexivity].
    + apply includes_spec. reflexivity.
  - unfold spec_axes, axes_hold.
    intros (_ & _ & _ & _ & _ & _ & _ & [H | (d & Hd & H)] & _);
      [discriminate H|].
    apply record_date_spec in Hd as [Hd _]. cbn in Hd. injection Hd as <-.
    apply includes_spec in H. discriminate H.
Qed.

(** *** Empty criteria *)

(** C7: with no criterion set, the filter returns the records as they
    are, all of them and in their order. *)
Theorem C7_empty_criteria_identity (env : Env) (st : Dashboard) :
  no_criteria st -> getFilteredInspections env st = inspections st.
Proof.
  intros (Hs & Hc & Hst & Hcf). unfold getFilteredInspections.
  apply forallb_filter_id, forallb_forall. intros r _.
  unfold passes. unfold_axes. rewrite Hs, Hc, Hst, Hcf. reflexivity.
Qed.

Lemma C7_empty_criteria_identity_witness :
  no_criteria (sample_dashboard scenario_records) /\
  getFilteredInspections sample_env (sample_dashboard scenario_records) =
  scenario_records.
Proof.
  assert (H : no_criteria (sample_dashboard scenario_records))
    by (repeat split; reflexivity).
  split; [exact H|].
  exact (C7_empty_criteria_identity sample_env
           (sample_dashboard scenario_records) H).
Defined.

(** *** Column filters *)

(** C5, at the same record and filter: the date of the record is shown
    as [Invalid Date], in which the filter [invalid] occurs up to case,
    and the date axis does not match, so the record is filtered out; at
    the same record the sibling axes of the location and of the name
    match a filter that differs from the value in case. *)
Theorem C5_date_filter_case_sensitive :
  cf_date (columnFilters (with_date_filter "invalid" [undated_record]))
    = "invalid" /\
  record_date undated_record "n/a" /\
  toLocaleDateString sample_env "n/a" = "Invalid Date" /\
  matches_nocase sample_env "invalid" "Invalid Date" /\
  matchesDateFilter sample_env (with_date_filter "invalid" [undated_record])
    undated_record = false /\
  getFilteredInspections sample_env
    (with_date_filter "invalid" [undated_record]) = [] /\
  (location_name undated_record = Some "Ward Office" /\
   cf_location (columnFilters (filtering_dashboard [undated_record]))
     = "office" /\
   matchesLocation sample_env (filtering_dashboard [undated_record])
     undated_record = true) /\
  (filled_by_name undated_record = Some "Asha" /\
   cf_filled_by_name (columnFilters (filtering_dashboard [undated_record]))
     = "asha" /\
   matchesFilledBy sample_env (filtering_dashboard [undated_record])
     undated_record = true).
Proof.
  split; [reflexivity|].
  split; [split; [discriminate | left; reflexivity]|].
  split; [reflexivity|].
  split; [apply includes_spec; reflexivity|].
  repeat split; reflexivity.
Qed.

(** ** Counters *)

Lemma getStatusCounts_unfold (st : Dashboard) :
  getStatusCounts st =
  {| total := List.length (inspections st);
     pending := List.length (List.filter is_pending (inspections st));
     completed := List.length (List.filter is_completed (inspections st));
     submitted := List.length (List.filter is_submitted (inspections st)) |}.
Proof. reflexivity. Qed.

(** A record falls in at most one bucket, and in one exactly when its
    status is one of the five. *)
Lemma bucket_exclusive (i : Inspection) :
  (Nat.b2n (is_pending i) + Nat.b2n (is_completed i) +
   Nat.b2n (is_submitted i) <= 1)%nat /\
  ((Nat.b2n (is_pending i) + Nat.b2n (is_completed i) +
    Nat.b2n (is_submitted i) = 1)%nat <-> In (status i) bucket_statuses).
Proof.
  unfold is_pending, is_completed, is_submitted, array_includes, bucket_statuses.
  simpl.
  destruct (String.eqb_spec (status i) "planned") as [->|H1];
    [simpl; split; [lia | tauto]|].
  destruct (String.eqb_spec (status i) "in_progress") as [->|H2];
    [simpl; split; [lia | tauto]|].
  destruct (String.eqb_spec (status i) "draft") as [->|H3];
    [simpl; split; [lia | tauto]|].
  destruct (String.eqb_spec (status i) "approved") as [->|H4];
    [simpl; split; [lia | tauto]|].
  destruct (String.eqb_spec (status i) "submitted") as [->|H5];
    [simpl; split; [lia | tauto]|].
  simpl. split; [lia|]. split; [lia|].
  intros [E|[E|[E|[E|[E|[]]]]]]; congruence.
Qed.

Lemma length_filter_cons {A : Type} (f : A -> bool) (a : A) (l : list A) :
  List.length (List.filter f (a :: l)) =
  (Nat.b2n (f a) + List.length (List.filter f l))%nat.
Proof. simpl. now destruct (f a). Qed.

Lemma buckets_of_list (l : list Inspection) :
  (List.length (List.filter is_pending l) +
   List.length (List.filter is_completed l) +
   List.length (List.filter is_submitted l) <= List.length l)%nat /\
  ((List.length (List.filter is_pending l) +
    List.length (List.filter is_completed l) +
    List.length (List.filter is_submitted l) = List.length l)%nat <->
   Forall (fun i => In (status i) bucket_statuses) l).
Proof.
  induction l as [|a l [IHle IHeq]].
  - simpl. split; [lia|]. split; [constructor | reflexivity].
  - rewrite !length_filter_cons, Forall_cons_iff, <- IHeq.
    destruct (bucket_exclusive a) as [Hle Heq]. rewrite <- Heq.
    cbn [List.length]. split; lia.
Qed.

(** C4: the three buckets never count more records than there are, and
    count all of them exactly when every record has one of the statuses
    planned, in_progress, draft, approved and submitted. *)
Theorem C4_buckets_bounded_by_total (st : Dashboard) :
  (pending (getStatusCounts st) + completed (getStatusCounts st) +
   submitted (getStatusCounts st) <= total (getStatusCounts st))%nat /\
  ((pending (getStatusCounts st) + completed (getStatusCounts st) +
    submitted (getStatusCounts st) = total (getStatusCounts st))%nat <->
   Forall (fun i => In (status i) bucket_statuses) (inspections st)).
Proof. rewrite getStatusCounts_unfold. simpl. apply buckets_of_list. Qed.

(** C6: the counters and the completion rate are computed from the
    records alone: two dashboards that hold the same records give the
    same counters and the same rate, whatever their criteria are. *)
Theorem C6_counters_ignore_criteria (st1 st2 : Dashboard) :
  inspections st1 = inspections st2 ->
  getStatusCounts st1 = getStatusCounts st2 /\
  getCompletionRate st1 = getCompletionRate st2.
Proof.
  intros H.
  assert (Hc : getStatusCounts st1 = getStatusCounts st2)
    by (unfold getStatusCounts; now rewrite H).
  split; [exact Hc|]. unfold getCompletionRate. now rewrite Hc.
Qed.

Lemma C6_counters_ignore_criteria_witness :
  inspections (sample_dashboard scenario_records) =
  inspections (filtering_dashboard scenario_records) /\
  getFilteredInspections sample_env (sample_dashboard scenario_records) <>
  getFilteredInspections sample_env (filtering_dashboard scenario_records) /\
  getStatusCounts (sample_dashboard scenario_records) =
  getStatusCounts (filtering_dashboard scenario_records) /\
  getCompletionRate (sample_dashboard scenario_records) =
  getCompletionRate (filtering_dashboard scenario_records).
Proof.
  split; [reflexivity|]. split; [vm_compute; discriminate|].
  exact (C6_counters_ignore_criteria (sample_dashboard scenario_records)
           (filtering_dashboard scenario_records) eq_refl).
Defined.

(** The scenario of the specification: four records, one draft, two
    approved, one submitted. *)
Example scenario_counters :
  getStatusCounts (sample_dashboard scenario_records) =
  {| total := 4; pending := 1; completed := 2; submitted := 1 |} /\
  getCompletionRate (sample_dashboard scenario_records) = JS.of_Z 50.
Proof. split; reflexivity. Qed.

(** ** Lifecycle handlers *)

Lemma set_status_frame (s : string) (r : Inspection) :
  status (set_status s r) = s /\ same_but_status r (set_status s r).
Proof. unfold same_but_status. simpl. repeat split. Qed.

Lemma rows_fetchInspections_failed (message : string) (w : World) :
  rows (fetchInspections_failed message w) = rows w.
Proof.
  unfold fetchInspections_failed.
  destruct (JS.includes message "Failed to fetch");
    [reflexivity | destruct (JS.includes message "JWT"); reflexivity].
Qed.

Lemma rows_fetchInspectionsData (B : Backend) (w : World) :
  rows (fetchInspectionsData B w) = rows w.
Proof.
  unfold fetchInspectionsData.
  destruct (negb (supabase_client B)).
  - now rewrite rows_fetchInspections_failed.
  - cbn zeta. destruct (select_inspections B _) as [message|data].
    + now rewrite rows_fetchInspections_failed.
    + reflexivity.
Qed.

Lemma rows_handleCompleteInspection (B : Backend) (inspectionId : string)
    (w : World) :
  supabase_client B = true ->
  update_error B inspectionId (rows w) = None ->
  rows (handleCompleteInspection B inspectionId w) =
  update_eq_id (set_status "approved") inspectionId (rows w).
Proof.
  intros Hs He. unfold handleCompleteInspection. rewrite Hs. cbn.
  rewrite He. cbn. now rewrite rows_fetchInspectionsData.
Qed.

(** C9: when the store applies the update, completing an inspection
    leaves as many rows as there were; a row with the given id has its
    status set to approved and every other field as it was, whatever its
    status was before; a row with another id is as it was. *)
Theorem C9_complete_sets_status_only (B : Backend) (inspectionId : string)
    (w : World) :
  supabase_client B = true ->
  update_error B inspectionId (rows w) = None ->
  List.length (rows (handleCompleteInspection B inspectionId w)) =
  List.length (rows w) /\
  (forall n r, nth_error (rows w) n = Some r ->
     (id r = inspectionId ->
      exists r',
        nth_error (rows (handleCompleteInspection B inspectionId w)) n
          = Some r' /\
        status r' = "approved" /\ same_but_status r r') /\
     (id r <> inspectionId ->
      nth_error (rows (handleCompleteInspection B inspectionId w)) n
        = Some r)).
Proof.
  intros Hs He. rewrite (rows_handleCompleteInspection B inspectionId w Hs He).
  unfold update_eq_id. split; [apply length_map|].
  intros n r Hn. rewrite nth_error_map, Hn. cbn. split; intros Hid.
  - apply String.eqb_eq in Hid as ->.
    exists (set_status "approved" r). split; [reflexivity|].
    apply set_status_frame.
  - apply String.eqb_neq in Hid as ->. reflexivity.
Qed.

Lemma C9_complete_sets_status_only_witness :
  supabase_client sample_backend = true /\
  update_error sample_backend "insp-1" (rows sample_world) = None /\
  List.map status (rows sample_world) =
    ["draft"; "approved"; "submitted"; "approved"] /\
  List.map status
    (rows (handleCompleteInspection sample_backend "insp-1" sample_world)) =
    ["approved"; "approved"; "submitted"; "approved"] /\
  (forall n r, nth_error (rows sample_world) n = Some r ->
     (id r = "insp-1" ->
      exists r',
        nth_error
          (rows (handleCompleteInspection sample_backend "insp-1" sample_world))
          n = Some r' /\
        status r' = "approved" /\ same_but_status r r') /\
     (id r <> "insp-1" ->
      nth_error
        (rows (handleCompleteInspection sample_backend "insp-1" sample_world))
        n = Some r)).
Proof.
  split; [reflexivity|]. split; [reflexivity|]. split; [reflexivity|].
  split; [reflexivity|].
  exact (proj2 (C9_complete_sets_status_only sample_backend "insp-1"
                  sample_world eq_refl eq_refl)).
Defined.

(** C3: confirming a revisit with no inspector selected only shows the
    message that asks for one: no request is sent to the store, the rows
    of the store and the state of the component are as they were. *)
Theorem C3_revisit_without_inspector (B : Backend) (w : World) :
  selectedInspector (ui w) = "" ->
  handleConfirmRevisit B w = alert "Please select an inspector for revisit" w /\
  calls (handleConfirmRevisit B w) = calls w /\
  rows (handleConfirmRevisit B w) = rows w /\
  ui (handleConfirmRevisit B w) = ui w /\
  alerts (handleConfirmRevisit B w) =
    (alerts w ++ ["Please select an inspector for revisit"])%list.
Proof.
  intros H. unfold handleConfirmRevisit. rewrite H. cbn. repeat split.
Qed.

Lemma C3_revisit_without_inspector_witness :
  selectedInspector (ui (handleRevisitInspection "insp-1" sample_world)) = "" /\
  calls (handleConfirmRevisit sample_backend
           (handleRevisitInspection "insp-1" sample_world)) = [] /\
  rows (handleConfirmRevisit sample_backend
          (handleRevisitInspection "insp-1" sample_world)) = scenario_records /\
  alerts (handleConfirmRevisit sample_backend
            (handleRevisitInspection "insp-1" sample_world)) =
    ["Please select an inspector for revisit"].
Proof.
  split; [reflexivity|].
  destruct (C3_revisit_without_inspector sample_backend
              (handleRevisitInspection "insp-1" sample_world) eq_refl)
    as (_ & Hc & Hr & _ & Ha).
  rewrite Hc, Hr, Ha. repeat split.
Defined.

(** Selecting an inspector first does reach the store: the record is
    handed to the inspector and goes back to fieldwork. *)
Example revisit_with_inspector :
  let w :=
    handleConfirmRevisit sample_backend
      (on_ui (setSelectedInspector "user-42")
         (handleRevisitInspection "insp-3" sample_world)) in
  calls w = [ReassignInspection "insp-3" "user-42"; GetInspections;
             FetchCategories; FetchInspectors] /\
  List.map (fun r => (inspector_id r, status r)) (rows w) =
    [("user-7", "draft"); ("user-7", "approved"); ("user-42", "in_progress");
     ("user-7", "approved")] /\
  alerts w = ["Inspection assigned for revisit successfully"].
Proof. repeat split. Qed.

(** ** Completion rate *)

(** [round_half_up] is rounding to the nearest integer, halves up. *)
Lemma round_half_up_spec (num den : Z) :
  (0 < den)%Z ->
  ((2 * round_half_up num den - 1) * den <= 2 * num
   < (2 * round_half_up num den + 1) * den)%Z.
Proof.
  intros Hd. unfold round_half_up.
  pose proof (Z.div_mod (2 * num + den) (2 * den) ltac:(lia)) as E.
  pose proof (Z.mod_pos_bound (2 * num + den) (2 * den) ltac:(lia)) as B.
  nia.
Qed.

(** [Math.round] of a number with a fractional part is the nearest
    integer to it, halves up: for [x = (-1)^s * m * 2^(-k)] the integer
    [n] it denotes has [n - 1/2 <= x < n + 1/2]. *)
Lemma Math_round_nearest (s : bool) (m k : positive) :
  let n := Z.div (2 * cond_Zopp s (Zpos m) + 2 ^ Zpos k) (2 * 2 ^ Zpos k) in
  JS.Math_round (S754_finite s m (Zneg k)) =
    (if Z.eqb n 0 then S754_zero s else JS.of_Z n) /\
  ((2 * n - 1) * 2 ^ Zpos k <= 2 * cond_Zopp s (Zpos m)
   < (2 * n + 1) * 2 ^ Zpos k)%Z.
Proof.
  cbn zeta. split; [reflexivity|].
  apply (round_half_up_spec (cond_Zopp s (Zpos m)) (2 ^ Zpos k)).
  apply Z.pow_pos_nonneg; lia.
Qed.

(** *** Binary64 arithmetic of the rate *)

Section Binary64.

Local Open Scope Z_scope.

(** The binary iteration of [SpecFloat] is iteration [Pos.to_nat p] times. *)
Lemma iter_pos_nat {A : Type} (f : A -> A) (p : positive) (x : A) :
  SpecFloat.iter_pos f p x = Nat.iter (Pos.to_nat p) f x.
Proof.
  revert x. induction p as [p IH|p IH|]; intros x; cbn [SpecFloat.iter_pos].
  - rewrite !IH, Pos2Nat.inj_xI, <- Nat.iter_succ_r, <- Nat.iter_add.
    f_equal. lia.
  - rewrite !IH, Pos2Nat.inj_xO, <- Nat.iter_add. f_equal. lia.
  - reflexivity.
Qed.

(** One step of the right shift halves the mantissa. *)
Lemma shr_1_m (mrs : shr_record) :
  0 <= shr_m mrs -> shr_m (shr_1 mrs) = shr_m mrs / 2.
Proof.
  destruct mrs as [m r s]. simpl. intros Hm.
  destruct m as [|[p|p|]|p]; simpl; try lia.
  - reflexivity.
  - rewrite Pos2Z.inj_xI. apply (Z.div_unique _ _ _ 1); lia.
  - rewrite Pos2Z.inj_xO. apply (Z.div_unique _ _ _ 0); lia.
  - reflexivity.
Qed.

Lemma shr_1_nonneg (mrs : shr_record) :
  0 <= shr_m mrs -> 0 <= shr_m (shr_1 mrs).
Proof. intros H. rewrite shr_1_m by exact H. apply Z.div_pos; lia. Qed.

Lemma iter_shr_1_m (n : nat) (mrs : shr_record) :
  0 <= shr_m mrs ->
  0 <= shr_m (Nat.iter n shr_1 mrs) /\
  shr_m (Nat.iter n shr_1 mrs) = shr_m mrs / 2 ^ Z.of_nat n.
Proof.
  intros Hm. induction n as [|n [IH0 IH]].
  - simpl. split; [exact Hm | now rewrite Z.div_1_r].
  - rewrite Nat.iter_succ. split; [now apply shr_1_nonneg|].
    rewrite shr_1_m by exact IH0. rewrite IH.
    rewrite Nat2Z.inj_succ, Z.pow_succ_r by lia.
    rewrite Z.div_div by lia. f_equal. lia.
Qed.

(** A right shift by [n] divides the mantissa by [2^n] and adds [n] to the
    exponent. *)
Lemma shr_spec (mrs : shr_record) (e n : Z) :
  0 <= shr_m mrs -> 0 <= n ->
  shr_m (fst (shr mrs e n)) = shr_m mrs / 2 ^ n /\ snd (shr mrs e n) = e + n.
Proof.
  intros Hm Hn. unfold shr. destruct n as [|p|p]; simpl; try lia.
  - split; [now rewrite Z.div_1_r | lia].
  - split; [|reflexivity]. rewrite iter_pos_nat.
    destruct (iter_shr_1_m (Pos.to_nat p) mrs Hm) as [_ ->].
    now rewrite positive_nat_Z.
Qed.

(** Away from the subnormal range a number keeps 53 bits. *)
Lemma fexp_normal (e : Z) : -1074 <= e - 53 -> fexp 53 1024 e = e - 53.
Proof. unfold fexp, emin. lia. Qed.

Lemma digits2_size (p : positive) : digits2_pos p = Pos.size p.
Proof. induction p; simpl; congruence. Qed.

Lemma digits_log2 (p : positive) :
  Zpos (digits2_pos p) = Z.log2 (Zpos p) + 1.
Proof.
  rewrite digits2_size. destruct p; simpl; rewrite ?Pos2Z.inj_succ; lia.
Qed.

(** [digits2_pos p] is the number of bits of [p]. *)
Lemma digits_spec (p : positive) :
  2 ^ (Zpos (digits2_pos p) - 1) <= Zpos p < 2 ^ Zpos (digits2_pos p).
Proof.
  rewrite digits_log2. pose proof (Z.log2_spec (Zpos p) ltac:(lia)) as H.
  replace (Z.log2 (Zpos p) + 1 - 1) with (Z.log2 (Zpos p)) by lia.
  exact H.
Qed.

Lemma digits_unique (p : positive) (d : Z) :
  2 ^ (d - 1) <= Zpos p < 2 ^ d -> Zpos (digits2_pos p) = d.
Proof.
  intros H. rewrite digits_log2.
  assert (Hd : 1 <= d).
  { destruct (Z_lt_le_dec d 1) as [Hlt|]; [|assumption].
    assert (2 ^ d <= 2 ^ 0) by (destruct (Z_lt_le_dec d 0);
      [rewrite Z.pow_neg_r by lia; simpl; lia | apply Z.pow_le_mono_r; lia]).
    simpl in *. lia. }
  rewrite (Z.log2_unique (Zpos p) (d - 1)); [lia | lia |].
  now replace (Z.succ (d - 1)) with d by lia.
Qed.

(** Rounding to nearest keeps the mantissa or adds one to it. *)
Lemma rne_bounds (m : Z) (l : location) :
  m <= round_nearest_even m l <= m + 1.
Proof.
  unfold round_nearest_even. destruct l as [|[]]; try lia.
  destruct (Z.even m); lia.
Qed.

Lemma shr_m_of_loc (m : Z) (l : location) : shr_m (shr_record_of_loc m l) = m.
Proof. destruct l as [|[]]; reflexivity. Qed.

Lemma pow2_split (a b : Z) : 0 <= a -> 0 <= b -> 2 ^ (a + b) = 2 ^ a * 2 ^ b.
Proof. intros. now apply Z.pow_add_r. Qed.

Lemma pow2_pos (a : Z) : 0 <= a -> 0 < 2 ^ a.
Proof. intros. now apply Z.pow_pos_nonneg. Qed.

(** Rounding a mantissa of [d >= 53] bits, away from the subnormal and
    the overflow range: the result is finite, with a mantissa of 53 bits
    that is the mantissa shifted by [d - 53] or the next integer,
    renormalized when that integer is [2^53]. *)
Lemma binary_round_aux_normal (sx : bool) (p : positive) (ex : Z)
    (lx : location) (d : Z) :
  Zpos (digits2_pos p) = d -> 53 <= d ->
  -1074 <= ex + d - 53 -> ex + d - 53 + 1 <= 971 ->
  exists (m : positive) (e m2 : Z),
    binary_round_aux 53 1024 sx (Zpos p) ex lx = S754_finite sx m e /\
    Zpos p / 2 ^ (d - 53) <= m2 <= Zpos p / 2 ^ (d - 53) + 1 /\
    2 ^ 52 <= Zpos m < 2 ^ 53 /\
    ((e = ex + d - 53 /\ Zpos m = m2) \/
     (e = ex + d - 53 + 1 /\ Zpos m = 2 ^ 52 /\ m2 = 2 ^ 53)).
Proof.
  intros Hd H53 Hlo Hhi.
  unfold binary_round_aux.
  assert (Hs1 : shr_fexp 53 1024 (Zpos p) ex lx =
                shr (shr_record_of_loc (Zpos p) lx) ex (d - 53)).
  { unfold shr_fexp. cbn [Zdigits2]. rewrite Hd, fexp_normal by lia.
    f_equal. lia. }
  rewrite Hs1. clear Hs1.
  pose proof (shr_spec (shr_record_of_loc (Zpos p) lx) ex (d - 53)) as Hshr.
  rewrite shr_m_of_loc in Hshr. specialize (Hshr ltac:(lia) ltac:(lia)).
  destruct (shr (shr_record_of_loc (Zpos p) lx) ex (d - 53)) as [mrs' e'].
  cbn [fst snd] in Hshr. destruct Hshr as [Hm1 He'].
  pose proof (digits_spec p) as Hp. rewrite Hd in Hp.
  pose proof (pow2_pos (d - 53) ltac:(lia)) as Hpos.
  assert (Hm1b : 2 ^ 52 <= Zpos p / 2 ^ (d - 53) < 2 ^ 53).
  { split.
    - apply Z.div_le_lower_bound; [lia|].
      rewrite Z.mul_comm, <- pow2_split by lia.
      now replace (52 + (d - 53)) with (d - 1) by lia.
    - apply Z.div_lt_upper_bound; [lia|].
      rewrite Z.mul_comm, <- pow2_split by lia.
      now replace (53 + (d - 53)) with d by lia. }
  pose proof (rne_bounds (shr_m mrs') (loc_of_shr_record mrs')) as Hr.
  remember (round_nearest_even (shr_m mrs') (loc_of_shr_record mrs')) as m2
    eqn:Em2.
  rewrite Hm1 in Hr. clear Em2 Hm1 mrs'.
  destruct m2 as [|p2|p2]; try lia.
  destruct (Z_lt_le_dec (Zpos p2) (2 ^ 53)) as [Hlt|Hge].
  - assert (Hd2 : Zpos (digits2_pos p2) = 53) by (apply digits_unique; lia).
    unfold shr_fexp. cbn [Zdigits2]. rewrite Hd2, fexp_normal by lia.
    replace (53 + e' - 53 - e') with 0 by lia. cbn [shr shr_record_of_loc shr_m].
    replace (e' <=? 1024 - 53) with true by (symmetry; apply Z.leb_le; lia).
    exists p2, e', (Zpos p2). split; [reflexivity|]. split; [lia|].
    split; [lia|]. left. split; [lia | reflexivity].
  - assert (Hp2 : Zpos p2 = 2 ^ 53) by lia.
    assert (p2 = 9007199254740992%positive) as ->
      by (apply Pos2Z.inj; rewrite Hp2; reflexivity).
    unfold shr_fexp. cbn [Zdigits2].
    replace (Zpos (digits2_pos 9007199254740992)) with 54 by reflexivity.
    rewrite fexp_normal by lia.
    replace (54 + e' - 53 - e') with 1 by lia.
    cbn [shr shr_record_of_loc SpecFloat.iter_pos shr_1 shr_m orb].
    replace (e' + 1 <=? 1024 - 53) with true by (symmetry; apply Z.leb_le; lia).
    cbn.
    exists 4503599627370496%positive, (e' + 1), (2 ^ 53).
    split; [reflexivity|]. split; [simpl in *; lia|].
    split; [simpl; lia|]. right. split; [lia|]. split; reflexivity.
Qed.

(** A mantissa of 53 bits is not changed by rounding. *)
Lemma binary_round_aux_exact (sx : bool) (p : positive) (ex : Z) :
  Zpos (digits2_pos p) = 53 -> -1074 <= ex <= 971 ->
  binary_round_aux 53 1024 sx (Zpos p) ex loc_Exact = S754_finite sx p ex.
Proof.
  intros Hd He. unfold binary_round_aux, shr_fexp. cbn [Zdigits2].
  rewrite Hd, fexp_normal by lia.
  replace (53 + ex - 53 - ex) with 0 by lia.
  cbn [shr shr_record_of_loc shr_m loc_of_shr_record shr_r shr_s
       round_nearest_even Zdigits2].
  rewrite Hd, fexp_normal by lia.
  replace (53 + ex - 53 - ex) with 0 by lia.
  cbn [shr shr_record_of_loc shr_m].
  now replace (ex <=? 1024 - 53) with true by (symmetry; apply Z.leb_le; lia).
Qed.

Lemma pos_iter_xO (p k : positive) :
  Zpos (Pos.iter xO p k) = Zpos p * 2 ^ Zpos k.
Proof.
  induction k as [|k IH] using Pos.peano_ind.
  - simpl. lia.
  - rewrite Pos.iter_succ, Pos2Z.inj_xO, IH, Pos2Z.inj_succ, Z.pow_succ_r by lia.
    lia.
Qed.

(** The number of an integer below [2^53] is the integer itself, with a
    mantissa of 53 bits. *)
Lemma of_Z_normal (n : Z) :
  1 <= n < 2 ^ 53 ->
  exists (m : positive) (e : Z),
    JS.of_Z n = S754_finite false m e /\
    Zpos (digits2_pos m) = 53 /\ -52 <= e <= 0 /\ Zpos m = n * 2 ^ (- e).
Proof.
  intros Hn. destruct n as [|p|p]; try lia.
  unfold JS.of_Z, JS.prec, JS.emax, binary_normalize, binary_round.
  pose proof (digits_spec p) as Hp.
  set (d := Zpos (digits2_pos p)) in *.
  assert (Hd : 1 <= d <= 53).
  { split; [subst d; lia|].
    destruct (Z_lt_le_dec 53 d) as [Hlt|]; [|assumption].
    assert (2 ^ 53 <= 2 ^ (d - 1)) by (apply Z.pow_le_mono_r; lia). lia. }
  rewrite fexp_normal by lia. unfold shl_align.
  destruct (d + 0 - 53 - 0) as [|k|k] eqn:Ek; try lia.
  - assert (d = 53) by lia.
    exists p, 0. split; [apply binary_round_aux_exact; lia|].
    split; [lia|]. split; [lia|]. simpl. lia.
  - assert (Hk : Zpos k = 53 - d) by lia.
    pose proof (pos_iter_xO p k) as Hit.
    assert (Hpow : 2 ^ (d - 1) * 2 ^ Zpos k = 2 ^ 52 /\
                   2 ^ d * 2 ^ Zpos k = 2 ^ 53).
    { rewrite <- !pow2_split by lia. split; f_equal; lia. }
    pose proof (pow2_pos (Zpos k) ltac:(lia)) as Hkpos.
    exists (Pos.iter xO p k), (d + 0 - 53).
    assert (Hdig : Zpos (digits2_pos (Pos.iter xO p k)) = 53).
    { apply digits_unique. rewrite Hit. change (53 - 1) with 52. nia. }
    split; [apply binary_round_aux_exact; [exact Hdig | lia]|].
    split; [exact Hdig|]. split; [lia|].
    rewrite Hit. f_equal. f_equal. lia.
Qed.

(** The quotient of two 53-bit numbers [c <= t]: a 53-bit number [m * 2^e]
    within one unit in the last place of [c / t]. *)
Lemma div_near (m1 m2 : positive) (e1 e2 c t : Z) :
  Zpos (digits2_pos m1) = 53 -> Zpos (digits2_pos m2) = 53 ->
  -52 <= e1 <= 0 -> -52 <= e2 <= 0 ->
  Zpos m1 = c * 2 ^ (- e1) -> Zpos m2 = t * 2 ^ (- e2) -> 1 <= c <= t ->
  exists (m : positive) (e : Z),
    JS.div (S754_finite false m1 e1) (S754_finite false m2 e2) =
      S754_finite false m e /\
    2 ^ 52 <= Zpos m < 2 ^ 53 /\ -106 <= e <= -52 /\
    c * 2 ^ (- e) - t < t * Zpos m <= c * 2 ^ (- e) + t.
Proof.
  intros Hd1 Hd2 He1 He2 Hm1 Hm2 Hct.
  pose proof (digits_spec m1) as Hb1. rewrite Hd1 in Hb1.
  pose proof (digits_spec m2) as Hb2. rewrite Hd2 in Hb2.
  change (53 - 1) with 52 in *.
  unfold JS.div, JS.prec, JS.emax, SFdiv, SFdiv_core_binary.
  cbn [Zdigits2 xorb]. rewrite Hd1, Hd2.
  rewrite fexp_normal by lia.
  rewrite Z.min_l by lia.
  replace (e1 - e2 - (53 + e1 - (53 + e2) - 53)) with 53 by lia.
  rewrite Z.shiftl_mul_pow2 by lia.
  set (e' := 53 + e1 - (53 + e2) - 53).
  destruct (Z.div_eucl (Zpos m1 * 2 ^ 53) (Zpos m2)) as [q r] eqn:Eq.
  assert (Hq : q = Zpos m1 * 2 ^ 53 / Zpos m2)
    by (unfold Z.div; now rewrite Eq).
  clear Eq.
  (* the quotient has 53 or 54 bits *)
  assert (Hq52 : 2 ^ 52 <= q).
  { rewrite Hq. apply Z.div_le_lower_bound; [lia|]. nia. }
  assert (Hq54 : q < 2 ^ 54).
  { rewrite Hq. apply Z.div_lt_upper_bound; [lia|].
    change (2 ^ 54) with (2 * 2 ^ 53). nia. }
  destruct q as [|pq|pq]; try (simpl in Hq52; lia).
  pose proof (digits_spec pq) as Hdq.
  set (d := Zpos (digits2_pos pq)) in *.
  assert (Hd : d = 53 \/ d = 54).
  { assert (52 < d) by (apply (Z.pow_lt_mono_r_iff 2); lia).
    assert (d - 1 < 54) by (apply (Z.pow_lt_mono_r_iff 2); lia).
    lia. }
  destruct (binary_round_aux_normal false pq e' (new_location (Zpos m2) r) d
              eq_refl ltac:(lia) ltac:(subst e'; lia) ltac:(subst e'; lia))
    as (m & e & mr & Hres & Hmr & Hm & Hcase).
  exists m, e. split; [exact Hres|]. split; [exact Hm|].
  (* the shifted quotient is the quotient of [c * 2^g] by [t] *)
  set (g := - e' - (d - 53)).
  assert (Hg0 : 0 <= g) by (subst g e'; lia).
  assert (HF : Zpos pq / 2 ^ (d - 53) = c * 2 ^ g / t).
  { rewrite Hq, Z.div_div by (try apply pow2_pos; lia).
    rewrite Hm1, Hm2.
    replace (c * 2 ^ (- e1) * 2 ^ 53) with (c * 2 ^ g * 2 ^ (- e2 + (d - 53))).
    - replace (t * 2 ^ (- e2) * 2 ^ (d - 53)) with (t * 2 ^ (- e2 + (d - 53)))
        by (rewrite pow2_split by lia; ring).
      apply Z.div_mul_cancel_r; [lia|].
      apply Z.neq_sym, Z.lt_neq, pow2_pos. lia.
    - rewrite <- !Z.mul_assoc, <- !pow2_split by lia. do 2 f_equal.
      subst g e'. lia. }
  rewrite HF in Hmr. clear HF.
  pose proof (Z.mul_div_le (c * 2 ^ g) t ltac:(lia)) as HF1.
  pose proof (Z.mul_succ_div_gt (c * 2 ^ g) t ltac:(lia)) as HF2.
  set (F := c * 2 ^ g / t) in *.
  assert (Hnear : c * 2 ^ g - t < t * mr <= c * 2 ^ g + t) by nia.
  assert (Hmr52 : 2 ^ 52 <= mr) by (destruct Hcase as [[_ <-]|(_ & _ & ->)]; lia).
  (* [g >= 52], as the quotient is at most 1 *)
  assert (Hg52 : 52 <= g).
  { destruct (Z_lt_le_dec g 52) as [Hlt|]; [|assumption].
    assert (Hp : 2 ^ g <= 2 ^ 51) by (apply Z.pow_le_mono_r; lia).
    pose proof (pow2_pos g Hg0).
    assert (t * mr <= t * 2 ^ g + t) by nia.
    assert (t * 2 ^ 52 <= t * mr) by nia.
    change (2 ^ 52) with (2 * 2 ^ 51) in *. nia. }
  destruct Hcase as [[-> Hmm] | (-> & Hmm & Hmr53)].
  - replace (- (e' + d - 53)) with g by (subst g; lia).
    split; [subst g e'; lia|]. rewrite Hmm. exact Hnear.
  - assert (Hg53 : 53 <= g).
    { destruct (Z_lt_le_dec g 53) as [Hlt|]; [|assumption].
      assert (g = 52) by lia. subst mr.
      assert (t * 2 ^ 53 <= t * 2 ^ g + t) by nia.
      rewrite H in *. change (2 ^ 53) with (2 * 2 ^ 52) in *.
      pose proof (pow2_pos 52 ltac:(lia)). nia. }
    split; [subst g e'; lia|].
    replace (- (e' + d - 53 + 1)) with (g - 1) by (subst g; lia).
    assert (Hg2 : 2 ^ g = 2 * 2 ^ (g - 1)).
    { rewrite <- Z.pow_succ_r by lia. f_equal. lia. }
    rewrite Hmm. rewrite Hmr53, Hg2 in Hnear.
    change (2 ^ 53) with (2 * 2 ^ 52) in Hnear. lia.
Qed.

Lemma of_Z_100 : JS.of_Z 100 = S754_finite false 7036874417766400 (-46).
Proof. reflexivity. Qed.

(** A 53-bit number within one unit in the last place of [c / t], times
    100 and rounded by [Math.round], is the percentage [100 * c / t]
    rounded half up, or the integer below it when the percentage is the
    half of an odd integer. *)
Lemma round_percent_near (m : positive) (e c t : Z) :
  2 ^ 52 <= Zpos m < 2 ^ 53 -> -106 <= e <= -52 ->
  1 <= c <= t -> t < 2 ^ 43 ->
  c * 2 ^ (- e) - t < t * Zpos m <= c * 2 ^ (- e) + t ->
  exists n : Z,
    JS.Math_round (JS.mul (S754_finite false m e) (JS.of_Z 100)) = JS.of_Z n /\
    0 <= n /\
    (n = round_half_up (100 * c) t \/
     n = round_half_up (100 * c) t - 1 /\
     2 * (100 * c) + t = 2 * t * round_half_up (100 * c) t).
Proof.
  intros Hm He Hct Ht Hnear. rewrite of_Z_100.
  unfold JS.mul, JS.prec, JS.emax, SFmul. cbn [xorb].
  (* [2^(-e) = 2^52 * U] *)
  set (u := - e - 52).
  assert (Hu : 0 <= u) by (subst u; lia).
  assert (HU : 2 ^ (- e) = 2 ^ 52 * 2 ^ u).
  { rewrite <- pow2_split by lia. f_equal. subst u. lia. }
  pose proof (pow2_pos u Hu) as HUpos.
  set (U := 2 ^ u) in *. rewrite HU in Hnear. clear HU.
  set (p := (m * 7036874417766400)%positive).
  assert (Hp : Zpos p = Zpos m * 7036874417766400) by reflexivity.
  pose proof (digits_spec p) as Hdp.
  set (d := Zpos (digits2_pos p)) in *.
  assert (Hd : d = 105 \/ d = 106).
  { assert (104 < d).
    { apply (Z.pow_lt_mono_r_iff 2); [lia | lia |].
      apply Z.le_lt_trans with (Zpos p); [|lia].
      rewrite Hp. change (2 ^ 104) with (2 ^ 52 * 2 ^ 52). nia. }
    assert (d - 1 < 106).
    { apply (Z.pow_lt_mono_r_iff 2); [lia | lia |].
      apply Z.le_lt_trans with (Zpos p); [lia|].
      rewrite Hp. change (2 ^ 106) with (2 ^ 53 * 2 ^ 53). nia. }
    lia. }
  destruct (binary_round_aux_normal false p (e + -46) loc_Exact d
              eq_refl ltac:(lia) ltac:(lia) ltac:(lia))
    as (m' & e' & mr & Hres & Hmr & Hm' & Hcase).
  rewrite Hres. clear Hres.
  assert (He' : e' <= -44) by (destruct Hcase as [[-> _]|(-> & _)]; lia).
  destruct e' as [|pe|k]; try lia.
  unfold JS.Math_round. cbn [cond_Zopp].
  set (n := (2 * Zpos m' + 2 ^ Zpos k) / (2 * 2 ^ Zpos k)).
  pose proof (pow2_pos (Zpos k) ltac:(lia)) as Hkpos.
  assert (Hn0 : 0 <= n) by (subst n; apply Z.div_pos; lia).
  pose proof (Z.mul_div_le (2 * Zpos m' + 2 ^ Zpos k) (2 * 2 ^ Zpos k)
                ltac:(lia)) as Hn1.
  pose proof (Z.mul_succ_div_gt (2 * Zpos m' + 2 ^ Zpos k) (2 * 2 ^ Zpos k)
                ltac:(lia)) as Hn2.
  fold n in Hn1, Hn2.
  (* the integer of the specification *)
  unfold round_half_up.
  pose proof (Z.mul_div_le (2 * (100 * c) + t) (2 * t) ltac:(lia)) as Hs1.
  pose proof (Z.mul_succ_div_gt (2 * (100 * c) + t) (2 * t) ltac:(lia)) as Hs2.
  set (s := (2 * (100 * c) + t) / (2 * t)) in *.
  (* the shifted product *)
  pose proof (pow2_pos (d - 53) ltac:(lia)) as Hdpos.
  pose proof (Z.mul_div_le (Zpos p) (2 ^ (d - 53)) Hdpos) as Hq1.
  pose proof (Z.mul_succ_div_gt (Zpos p) (2 ^ (d - 53)) Hdpos) as Hq2.
  set (F := Zpos p / 2 ^ (d - 53)) in *.
  exists n. split; [destruct (Z.eqb_spec n 0) as [->|]; reflexivity|].
  split; [exact Hn0|].
  (* the products the comparison goes through *)
  assert (Ht0 : 0 < t) by lia.
  assert (HtU : 0 < t * U) by (apply Z.mul_pos_pos; lia).
  assert (HS1 : 2 * (t * U * s) <= 200 * (c * U) + t * U)
    by (clear - Hs1 HUpos; nia).
  assert (HS2 : 200 * (c * U) + t * U + U <= 2 * (t * U * s) + 2 * (t * U))
    by (clear - Hs2 HUpos; nia).
  assert (HC : 2 ^ 52 * (c * U) - t < t * Zpos m <= 2 ^ 52 * (c * U) + t)
    by (clear - Hnear; lia).
  assert (HB : 2 ^ (d - 53) * mr <= Zpos m * 7036874417766400 + 2 ^ (d - 53) /\
               Zpos m * 7036874417766400 - 2 ^ (d - 53) < 2 ^ (d - 53) * mr)
    by (clear - Hmr Hq1 Hq2 Hp Hdpos; nia).
  assert (HBt : 2 ^ (d - 53) * (t * mr) <=
                  7036874417766400 * (t * Zpos m) + 2 ^ (d - 53) * t /\
                7036874417766400 * (t * Zpos m) - 2 ^ (d - 53) * t <
                  2 ^ (d - 53) * (t * mr)).
  { destruct HB as [HB1 HB2]. clear - HB1 HB2 Ht0. split; nia. }
  clear HB Hq1 Hq2 Hmr Hdp Hp Hnear Hs1 Hs2.
  (* [2 * 2^k0 * n <= 2 * mr + 2^k0 < 2 * 2^k0 * (n + 1)] with
     [2^k0 * 2^(d - 53) = 2^98 * U] *)
  assert (HA : exists K, K * 2 ^ (d - 53) = 2 ^ 98 /\ 0 < K /\
                 2 * (K * U) * n <= 2 * mr + K * U /\
                 2 * mr + K * U < 2 * (K * U) * n + 2 * (K * U)).
  { destruct Hcase as [[Hk Hmm] | (Hk & Hmm & Hmr53)].
    - exists (2 ^ (98 - (d - 53))).
      assert (Hk' : Zpos k = (98 - (d - 53)) + u) by (subst u; lia).
      rewrite Hk', pow2_split in Hn1, Hn2 by lia. fold U in Hn1, Hn2.
      rewrite Hmm in Hn1, Hn2.
      split; [rewrite <- pow2_split by lia; f_equal; lia|].
      split; [apply pow2_pos; lia|].
      clear - Hn1 Hn2. lia.
    - exists (2 ^ (98 - (d - 53))).
      assert (Hk' : Zpos k = (97 - (d - 53)) + u) by (subst u; lia).
      rewrite Hk', pow2_split in Hn1, Hn2 by lia. fold U in Hn1, Hn2.
      rewrite Hmm in Hn1, Hn2.
      assert (HK : 2 ^ (98 - (d - 53)) = 2 * 2 ^ (97 - (d - 53))).
      { rewrite <- Z.pow_succ_r by lia. f_equal. lia. }
      split; [rewrite <- pow2_split by lia; f_equal; lia|].
      split; [apply pow2_pos; lia|].
      rewrite HK, Hmr53. change (2 ^ 53) with (2 * 2 ^ 52).
      clear - Hn1 Hn2. lia. }
  destruct HA as (K & HK & HKpos & HA1 & HA2).
  clear Hn1 Hn2 Hcase.
  assert (HAt : 2 * (K * (t * U * n)) <= 2 * (t * mr) + K * (t * U) /\
                2 * (t * mr) + K * (t * U) <
                  2 * (K * (t * U * n)) + 2 * (K * (t * U))).
  { clear - HA1 HA2 Ht0. split; nia. }
  clear HA1 HA2.
  (* everything at the scale [2^98 * U * t] *)
  destruct HBt as [HB1 HB2]. destruct HAt as [HA1 HA2].
  assert (HA1' : 2 * (2 ^ 98 * (t * U * n)) <=
                 2 * (2 ^ (d - 53) * (t * mr)) + 2 ^ 98 * (t * U)).
  { rewrite <- HK. clear - HA1 Hdpos. nia. }
  assert (HA2' : 2 * (2 ^ (d - 53) * (t * mr)) + 2 ^ 98 * (t * U) <
                 2 * (2 ^ 98 * (t * U * n)) + 2 * (2 ^ 98 * (t * U))).
  { rewrite <- HK. clear - HA2 Hdpos. nia. }
  assert (Hpow : 2 ^ (d - 53) <= 2 ^ 53) by (apply Z.pow_le_mono_r; lia).
  set (X := 2 ^ (d - 53) * (t * mr)) in *.
  set (D := 2 ^ (d - 53)) in *.
  set (Pm := t * Zpos m) in *. set (cU := c * U) in *.
  set (tU := t * U) in *. set (N := tU * n) in *. set (S := tU * s) in *.
  assert (HDt : 0 <= D * t <= 2 ^ 53 * t) by (clear - Hpow Hdpos Ht0; nia).
  set (Dt := D * t) in *.
  assert (Hgoal : N < S + tU /\ S <= N + tU /\
                  (N + tU = S -> 200 * cU + tU = 2 * S)).
  { clear - HA1' HA2' HB1 HB2 HC HS1 HS2 HDt Ht Ht0 HUpos HtU. lia. }
  destruct Hgoal as (Hup & Hlo & Htie).
  assert (Hns : n <= s) by (subst N S; clear - Hup HtU; nia).
  assert (Hsn : s - 1 <= n) by (subst N S; clear - Hlo HtU; nia).
  destruct (Z.eq_dec n s) as [Heq|Hne]; [now left|].
  right. assert (Hn : n = s - 1) by lia. split; [exact Hn|].
  assert (HNS : N + tU = S) by (subst N S; rewrite Hn; ring).
  specialize (Htie HNS). subst S cU tU.
  clear - Htie HUpos. nia.
Qed.

Lemma round_half_up_percent_range (c t : Z) :
  0 <= c <= t -> 0 < t -> 0 <= round_half_up (100 * c) t <= 100.
Proof.
  intros Hc Ht. unfold round_half_up. split.
  - apply Z.div_pos; lia.
  - assert ((2 * (100 * c) + t) / (2 * t) < 101)
      by (apply Z.div_lt_upper_bound; lia).
    lia.
Qed.

(** The rate computed from the counters [c <= t], for fewer than [2^43]
    records: an integer between 0 and 100, the percentage rounded half up
    or, when the percentage is the half of an odd integer, possibly the
    integer below. *)
Lemma rate_of_counts_near (c t : nat) :
  (c <= t)%nat -> Z.of_nat t < 2 ^ 43 ->
  exists n : Z,
    rate_of_counts c t = JS.of_Z n /\ 0 <= n <= 100 /\
    (n = completion_rate_spec c t \/
     n = completion_rate_spec c t - 1 /\
     2 * (100 * Z.of_nat c) + Z.of_nat t =
       2 * Z.of_nat t * completion_rate_spec c t).
Proof.
  intros Hct Ht. unfold rate_of_counts, completion_rate_spec.
  destruct (Nat.eqb_spec t 0) as [->|Ht0].
  { exists 0. split; [reflexivity|]. split; [lia | now left]. }
  pose proof (round_half_up_percent_range (Z.of_nat c) (Z.of_nat t)
                ltac:(lia) ltac:(lia)) as Hrange.
  assert (Ht53 : 2 ^ 43 <= 2 ^ 53) by (apply Z.pow_le_mono_r; lia).
  destruct (of_Z_normal (Z.of_nat t) ltac:(lia))
    as (m2 & e2 & Ht2 & Hd2 & He2 & Hm2).
  unfold JS.of_nat. rewrite Ht2.
  destruct (Nat.eq_dec c 0%nat) as [->|Hc0].
  - exists 0. split; [reflexivity|]. split; [lia|]. left.
    unfold round_half_up. symmetry. apply Z.div_small. lia.
  - destruct (of_Z_normal (Z.of_nat c) ltac:(lia))
      as (m1 & e1 & Hc1 & Hd1 & He1 & Hm1).
    rewrite Hc1.
    destruct (div_near m1 m2 e1 e2 (Z.of_nat c) (Z.of_nat t) Hd1 Hd2 He1 He2
                Hm1 Hm2 ltac:(lia)) as (m & e & Hdiv & Hm & He & Hnear).
    rewrite Hdiv.
    destruct (round_percent_near m e (Z.of_nat c) (Z.of_nat t) Hm He
                ltac:(lia) Ht Hnear) as (n & Hn & Hn0 & Hcases).
    exists n. split; [exact Hn|]. split; [lia | exact Hcases].
Qed.

End Binary64.

(** With no record the rate is [0]. *)
Lemma getCompletionRate_no_records (st : Dashboard) :
  inspections st = [] -> getCompletionRate st = S754_zero false.
Proof. intros H. unfold getCompletionRate, getStatusCounts. now rewrite H. Qed.

Lemma getCompletionRate_counts (st : Dashboard) :
  getCompletionRate st =
  rate_of_counts (completed (getStatusCounts st)) (total (getStatusCounts st)).
Proof. reflexivity. Qed.

Lemma completed_le_total (st : Dashboard) :
  (completed (getStatusCounts st) <= total (getStatusCounts st))%nat.
Proof. simpl. apply filter_length_le. Qed.

(** For a record set of a size a JavaScript array can have (fewer than
    [2^32] elements), the rate is an integer between 0 and 100: the
    percentage rounded half up or, when the percentage is the half of an
    odd integer, possibly the integer below. *)
Lemma getCompletionRate_near_spec (st : Dashboard) :
  (Z.of_nat (List.length (inspections st)) < 2 ^ 32)%Z ->
  exists n : Z,
    getCompletionRate st = JS.of_Z n /\ (0 <= n <= 100)%Z /\
    (n = completion_rate_spec (completed (getStatusCounts st))
           (total (getStatusCounts st)) \/
     n = (completion_rate_spec (completed (getStatusCounts st))
            (total (getStatusCounts st)) - 1)%Z /\
     (2 * (100 * Z.of_nat (completed (getStatusCounts st))) +
      Z.of_nat (total (getStatusCounts st)) =
      2 * Z.of_nat (total (getStatusCounts st)) *
      completion_rate_spec (completed (getStatusCounts st))
        (total (getStatusCounts st)))%Z).
Proof.
  intros Hlen. rewrite getCompletionRate_counts.
  apply rate_of_counts_near; [apply completed_le_total|].
  assert ((2 ^ 32 <= 2 ^ 43)%Z) by (apply Z.pow_le_mono_r; lia).
  change (total (getStatusCounts st)) with (List.length (inspections st)).
  lia.
Qed.

(** C2, at forty records of which twenty-three are approved: the
    percentage is 57.5, which rounds half up to 58; the code computes
    [23 / 40] and then the product with [100] in binary64, gets
    57.49999999999999 ([8092405580431359 * 2^(-47)], one unit below
    57.5), and returns 57. *)
Theorem C2_completion_rate_23_of_40 :
  getStatusCounts (sample_dashboard forty_records) =
    {| total := 40; pending := 17; completed := 23; submitted := 0 |} /\
  completion_rate_spec 23 40 = 58%Z /\
  JS.mul (JS.div (JS.of_nat 23) (JS.of_nat 40)) (JS.of_Z 100) =
    S754_finite false 8092405580431359 (-47) /\
  (2 * 8092405580431359 + 2 = 115 * 2 ^ 47)%Z /\
  getCompletionRate (sample_dashboard forty_records) = JS.of_Z 57 /\
  getCompletionRate (sample_dashboard forty_records) <> JS.of_Z 58.
Proof.
  split; [reflexivity|]. split; [reflexivity|]. split; [vm_compute; reflexivity|].
  split; [reflexivity|]. split; [vm_compute; reflexivity|].
  vm_compute. discriminate.
Qed.

(** * Further properties of the component *)

(** ** Narrowing and widening the criteria *)

Lemma filter_sublist_mono {A : Type} (f g : A -> bool) (l : list A) :
  (forall x, In x l -> f x = true -> g x = true) ->
  sublist (List.filter f l) (List.filter g l).
Proof.
  induction l as [|a l IH]; intros H; simpl.
  - constructor.
  - assert (IH' : sublist (List.filter f l) (List.filter g l)).
    { apply IH. intros x Hx. apply H. now right. }
    destruct (f a) eqn:Ef.
    + rewrite (H a (or_introl eq_refl) Ef). now constructor.
    + destruct (g a); [now constructor | exact IH'].
Qed.

Lemma passes_true (env : Env) (st : Dashboard) (r : Inspection) :
  passes env st r = true <->
  matchesSearch env st r = true /\ matchesCategory st r = true /\
  matchesStatus st r = true /\ matchesInspectionNumber env st r = true /\
  matchesLocation env st r = true /\ matchesCategoryFilter env st r = true /\
  matchesStatusFilter env st r = true /\ matchesDateFilter env st r = true /\
  matchesFilledBy env st r = true.
Proof. unfold passes. rewrite !andb_true_iff. tauto. Qed.

(** X1. The rows shown are again the rows shown of themselves: the criteria
    applied to the result of the filter drop nothing more. *)
Theorem filter_idempotent (env : Env) (st : Dashboard) :
  getFilteredInspections env
    (setInspections (getFilteredInspections env st) st) =
  getFilteredInspections env st.
Proof.
  unfold getFilteredInspections. cbn [inspections setInspections].
  rewrite (List.filter_ext _ (passes env st))
    by (intros r; apply passes_setInspections).
  induction (inspections st) as [|a l IH]; simpl; [reflexivity|].
  destruct (passes env st a) eqn:E; simpl; [rewrite E, IH; reflexivity | exact IH].
Qed.

Lemma includes_narrow (hay v v' : string) :
  is_substring v v' -> JS.includes hay v' = true -> JS.includes hay v = true.
Proof. rewrite !includes_spec. apply is_substring_trans. Qed.

Lemma includes_nocase_narrow (env : Env) (field : option string)
    (s s' : string) :
  is_substring (toLowerCase env s) (toLowerCase env s') ->
  includes_nocase env field s' = true -> includes_nocase env field s = true.
Proof.
  intros Hs. unfold includes_nocase. destruct field as [v|]; [|auto].
  now apply includes_narrow.
Qed.

Lemma axis_narrow (v v' : string) (m m' : bool) :
  v' <> "" -> (m' = true -> m = true) ->
  JS.is_empty v' || m' = true -> JS.is_empty v || m = true.
Proof.
  intros Hne Hm. rewrite !orb_true_iff, !is_empty_true. intros [-> | H].
  - contradiction.
  - right. exact (Hm H).
Qed.

(** X2. Typing on narrows the search: when the new search term is not
    empty and the lower-cased term of before occurs in the lower-cased
    new term, the rows shown for the new term are a sub-sequence of the
    rows shown for the term of before, whatever the other criteria. *)
Theorem search_term_narrows (env : Env) (st : Dashboard) (s s' : string) :
  s' <> "" ->
  is_substring (toLowerCase env s) (toLowerCase env s') ->
  sublist (getFilteredInspections env (setSearchTerm s' st))
    (getFilteredInspections env (setSearchTerm s st)).
Proof.
  intros Hne Hs. unfold getFilteredInspections.
  cbn [inspections setSearchTerm].
  apply filter_sublist_mono. intros r _.
  rewrite !passes_true. unfold_axes. cbn [searchTerm selectedCategory
    selectedStatus columnFilters categories setSearchTerm].
  intros (H1 & H). split; [|exact H].
  revert H1. rewrite <- !orb_assoc. apply axis_narrow; [exact Hne|].
  rewrite !orb_true_iff.
  intros [H1 | H1]; [left | right];
    exact (includes_nocase_narrow _ _ _ _ Hs H1).
Qed.

Lemma search_term_narrows_witness :
  is_substring (toLowerCase sample_env "ward")
    (toLowerCase sample_env "Ward Office") /\
  sublist
    (getFilteredInspections sample_env
       (setSearchTerm "Ward Office" (sample_dashboard scenario_records)))
    (getFilteredInspections sample_env
       (setSearchTerm "ward" (sample_dashboard scenario_records))).
Proof.
  assert (H : is_substring (toLowerCase sample_env "ward")
                (toLowerCase sample_env "Ward Office")).
  { apply includes_spec. reflexivity. }
  split; [exact H|].
  apply (search_term_narrows sample_env _ "ward" "Ward Office");
    [discriminate | exact H].
Defined.

(** X3. Typing on in a filter box narrows: when the new text of the box
    of a column is not empty and the text of before occurs in it, both
    lower-cased for the five columns that are matched in lower case and
    as they are for the date column, the rows shown for the new text are
    a sub-sequence of the rows shown before, whatever the other
    criteria. *)
Theorem column_filter_narrows (env : Env) (st : Dashboard) (key : ColumnKey)
    (value : string) :
  value <> "" ->
  match key with
  | key_date => is_substring (column key (columnFilters st)) value
  | _ =>
      is_substring (toLowerCase env (column key (columnFilters st)))
        (toLowerCase env value)
  end ->
  sublist (getFilteredInspections env (changeColumnFilter key value st))
    (getFilteredInspections env st).
Proof.
  intros Hne Hv. unfold getFilteredInspections.
  cbn [inspections changeColumnFilter setColumnFilters].
  apply filter_sublist_mono. intros r _. rewrite !passes_true.
  unfold_axes. unfold categoryName.
  cbn [searchTerm selectedCategory selectedStatus columnFilters categories
       changeColumnFilter setColumnFilters].
  destruct key; cbn [column withColumn cf_inspectionNumber cf_location
    cf_category cf_status cf_date cf_filled_by_name] in *;
    intros (H1 & H2 & H3 & H4 & H5 & H6 & H7 & H8 & H9).
  - repeat (split; [assumption|]).
    split; [|repeat split; assumption].
    revert H4. apply axis_narrow; [exact Hne|].
    apply includes_nocase_narrow, Hv.
  - repeat (split; [assumption|]).
    split; [|repeat split; assumption].
    revert H5. apply axis_narrow; [exact Hne|].
    apply includes_nocase_narrow, Hv.
  - repeat (split; [assumption|]).
    split; [|repeat split; assumption].
    revert H6. apply axis_narrow; [exact Hne|].
    apply includes_narrow, Hv.
  - repeat (split; [assumption|]).
    split; [|repeat split; assumption].
    revert H7. apply axis_narrow; [exact Hne|].
    apply includes_narrow, Hv.
  - repeat (split; [assumption|]).
    split; [|assumption].
    revert H8. apply axis_narrow; [exact Hne|].
    destruct (inspectionDate r) as [d|]; [|auto].
    rewrite !andb_true_iff. intros [Hd Hi]. split; [exact Hd|].
    exact (includes_narrow _ _ _ Hv Hi).
  - repeat (split; [assumption|]).
    revert H9. apply axis_narrow; [exact Hne|].
    apply includes_nocase_narrow, Hv.
Qed.

Lemma column_filter_narrows_witness :
  column key_location
    (columnFilters
       (changeColumnFilter key_location "ward"
          (sample_dashboard scenario_records))) = "ward" /\
  sublist
    (getFilteredInspections sample_env
       (changeColumnFilter key_location "Ward Office"
          (changeColumnFilter key_location "ward"
             (sample_dashboard scenario_records))))
    (getFilteredInspections sample_env
       (changeColumnFilter key_location "ward"
          (sample_dashboard scenario_records))).
Proof.
  split; [reflexivity|].
  apply (column_filter_narrows sample_env
           (changeColumnFilter key_location "ward"
              (sample_dashboard scenario_records))
           key_location "Ward Office").
  - discriminate.
  - apply includes_spec. reflexivity.
Defined.

(** ** The status select and the counters *)

Lemma passes_status_only (env : Env) (st : Dashboard) (s : string)
    (r : Inspection) :
  searchTerm st = "" -> selectedCategory st = "" ->
  columnFilters st = no_column_filters ->
  passes env (setSelectedStatus s st) r =
  JS.is_empty s || String.eqb (status r) s.
Proof.
  intros Hs Hc Hf. unfold passes. unfold_axes.
  cbn [searchTerm selectedCategory selectedStatus columnFilters
       setSelectedStatus].
  rewrite Hs, Hc, Hf. cbn. now rewrite !andb_true_r.
Qed.

(** X4. With nothing set but the status select, the rows shown are the
    records of that status, and the numbers of rows shown for
    [approved], for [submitted] and for [planned], [in_progress] and
    [draft] together are the completed, submitted and pending counters of
    the cards; with the select on "all statuses" the number is the total. *)
Theorem status_select_agrees_with_counters (env : Env) (st : Dashboard) :
  searchTerm st = "" -> selectedCategory st = "" ->
  columnFilters st = no_column_filters ->
  (forall s, s <> "" ->
     getFilteredInspections env (setSelectedStatus s st) =
     List.filter (fun r => String.eqb (status r) s) (inspections st)) /\
  List.length (getFilteredInspections env (setSelectedStatus "" st)) =
    total (getStatusCounts st) /\
  List.length (getFilteredInspections env (setSelectedStatus "approved" st)) =
    completed (getStatusCounts st) /\
  List.length (getFilteredInspections env (setSelectedStatus "submitted" st)) =
    submitted (getStatusCounts st) /\
  (List.length (getFilteredInspections env (setSelectedStatus "planned" st)) +
   List.length (getFilteredInspections env (setSelectedStatus "in_progress" st)) +
   List.length (getFilteredInspections env (setSelectedStatus "draft" st)))%nat =
    pending (getStatusCounts st).
Proof.
  intros Hs Hc Hf.
  assert (E : forall s,
    getFilteredInspections env (setSelectedStatus s st) =
    List.filter (fun r => JS.is_empty s || String.eqb (status r) s)
      (inspections st)).
  { intros s. unfold getFilteredInspections. cbn [inspections setSelectedStatus].
    apply List.filter_ext. intros r. now apply passes_status_only. }
  split; [|split; [|split; [|split]]].
  - intros s Hne. rewrite E. apply List.filter_ext. intros r.
    destruct s; [contradiction | reflexivity].
  - rewrite E. cbn [getStatusCounts total]. f_equal.
    clear E. induction (inspections st) as [|a l IH]; cbn;
      [reflexivity | now f_equal].
  - rewrite E. reflexivity.
  - rewrite E. reflexivity.
  - rewrite !E. cbn [JS.is_empty orb getStatusCounts pending]. clear E.
    induction (inspections st) as [|a l IH]; [reflexivity|].
    rewrite !length_filter_cons, <- IH. unfold array_includes.
    cbn [existsb].
    destruct (String.eqb_spec (status a) "planned") as [->|];
      [reflexivity|].
    destruct (String.eqb_spec (status a) "in_progress") as [->|];
      [cbn; lia|].
    destruct (String.eqb_spec (status a) "draft"); cbn; lia.
Qed.

Lemma status_select_agrees_with_counters_witness :
  List.length
    (getFilteredInspections sample_env
       (setSelectedStatus "approved" (sample_dashboard scenario_records))) = 2%nat /\
  completed (getStatusCounts (sample_dashboard scenario_records)) = 2%nat.
Proof.
  pose proof (status_select_agrees_with_counters sample_env
                (sample_dashboard scenario_records)
                eq_refl eq_refl eq_refl) as (_ & _ & H & _).
  split; [reflexivity | rewrite <- H; reflexivity].
Defined.

(** ** What the cells show of what the filters matched *)

Lemma formatOr_inspectionDate (env : Env) (r : Inspection) (d : string) :
  inspectionDate r = Some d -> d <> "" ->
  inspectionsDateCell env r = toLocaleDateString env d.
Proof.
  unfold inspectionDate, JS.or_else, JS.truthy, inspectionsDateCell, formatOr.
  destruct (inspection_date r) as [[|c x]|]; cbn.
  - intros ->. destruct d; [contradiction | reflexivity].
  - intros [= <-] _. reflexivity.
  - intros ->. destruct d; [contradiction | reflexivity].
Qed.

(** X5. Under a date filter the inspections table shows what was matched:
    the date cell of every row shown contains the text of the filter. The
    table of recent inspections shows ['-'] for a record without
    inspection date, also when its planned date matched the filter. *)
Theorem date_filter_matches_date_cell (env : Env) (st : Dashboard)
    (r : Inspection) :
  cf_date (columnFilters st) <> "" ->
  In r (getFilteredInspections env st) ->
  is_substring (cf_date (columnFilters st)) (inspectionsDateCell env r) /\
  (JS.truthy (inspection_date r) = true ->
   recentDateCell env r = inspectionsDateCell env r) /\
  (JS.truthy (inspection_date r) = false -> recentDateCell env r = "-").
Proof.
  intros Hne Hin. unfold getFilteredInspections in Hin.
  apply List.filter_In in Hin as [_ Hp]. apply passes_true in Hp.
  destruct Hp as (_ & _ & _ & _ & _ & _ & _ & Hd & _).
  apply matchesDateFilter_spec in Hd as [He | (d & Hd & Hn & Hs)];
    [contradiction|].
  split; [|split].
  - now rewrite (formatOr_inspectionDate env r d Hd Hn).
  - unfold recentDateCell, inspectionsDateCell, formatOr, JS.truthy.
    destruct (inspection_date r) as [[|c x]|]; cbn; try discriminate.
    reflexivity.
  - unfold recentDateCell, formatOr, JS.truthy.
    destruct (inspection_date r) as [[|c x]|]; cbn; try discriminate;
      reflexivity.
Qed.

Lemma date_filter_matches_date_cell_witness :
  cf_date (columnFilters (with_date_filter "1/5" scenario_records)) <> "" /\
  In (sample_inspection "1" "draft" None (Some "2024-01-05"))
    (getFilteredInspections sample_env
       (with_date_filter "1/5" scenario_records)) /\
  inspectionsDateCell sample_env
    (sample_inspection "1" "draft" None (Some "2024-01-05")) = "1/5/2024" /\
  recentDateCell sample_env
    (sample_inspection "1" "draft" None (Some "2024-01-05")) = "-".
Proof.
  assert (H1 : cf_date (columnFilters (with_date_filter "1/5" scenario_records))
               <> "") by discriminate.
  assert (H2 : In (sample_inspection "1" "draft" None (Some "2024-01-05"))
    (getFilteredInspections sample_env
       (with_date_filter "1/5" scenario_records))) by (left; reflexivity).
  pose proof (date_filter_matches_date_cell sample_env _ _ H1 H2)
    as (_ & _ & H3).
  split; [exact H1 | split; [exact H2 | split; [reflexivity|]]].
  apply H3. reflexivity.
Defined.

(** X6. Under a category filter that is not empty, and with a case
    mapping that keeps the empty string empty and the filter not empty,
    as [toLowerCase] does, every row shown has a category of the list: a
    record whose [category_id] is dangling is hidden, whatever the
    filter. In the table of recent inspections and in the cards the
    category cell of a row shown is the translated name of its category,
    in which the filter occurs when both are lower-cased; in the desktop
    inspections table the cell is the name of the category, or its
    Marathi name, which the filter does not read. *)
Theorem category_filter_matches_category_cell (env : Env) (language : string)
    (st : Dashboard) (r : Inspection) :
  cf_category (columnFilters st) <> "" ->
  toLowerCase env "" = "" ->
  toLowerCase env (cf_category (columnFilters st)) <> "" ->
  In r (getFilteredInspections env st) ->
  exists category,
    List.find (fun c => String.eqb (cat_id c) (category_id r)) (categories st)
      = Some category /\
    In category (categories st) /\ cat_id category = category_id r /\
    categoryCell env st r =
      t env ("categories." ++ cat_form_type category) (cat_name category) /\
    matches_nocase env (cf_category (columnFilters st))
      (categoryCell env st r) /\
    inspectionsCategoryCell language st r =
      (if String.eqb language "mr" then cat_name_marathi category
       else cat_name category).
Proof.
  intros Hne Hempty Hlow Hin. unfold getFilteredInspections in Hin.
  apply List.filter_In in Hin as [_ Hp]. apply passes_true in Hp.
  destruct Hp as (_ & _ & _ & _ & _ & Hc & _).
  unfold matchesCategoryFilter in Hc. rewrite orb_true_iff, is_empty_true in Hc.
  destruct Hc as [He | Hc]; [contradiction|].
  apply includes_spec in Hc. revert Hc.
  unfold categoryName, categoryCell, inspectionsCategoryCell, matches_nocase.
  destruct (List.find _ (categories st)) as [c|] eqn:Ef.
  - intros Hc. exists c. apply List.find_some in Ef as Hf.
    destruct Hf as [Hi He]. apply String.eqb_eq in He.
    repeat split; auto.
  - rewrite Hempty. intros Hc. apply substring_of_empty in Hc.
    contradiction.
Qed.

Lemma category_filter_matches_category_cell_witness :
  cf_category
    (columnFilters
       (setSelectedCategory "" (filtering_dashboard scenario_records))) = "off" /\
  In dated_record
    (getFilteredInspections sample_env
       (setSelectedCategory "" (filtering_dashboard scenario_records))) /\
  categoryCell sample_env
    (setSelectedCategory "" (filtering_dashboard scenario_records))
    dated_record = "Office" /\
  matches_nocase sample_env "off" "Office" /\
  inspectionsCategoryCell "en"
    (setSelectedCategory "" (filtering_dashboard scenario_records))
    dated_record = "Office".
Proof.
  assert (H1 : cf_category
    (columnFilters
       (setSelectedCategory "" (filtering_dashboard scenario_records)))
    <> "") by discriminate.
  assert (H2 : In dated_record
    (getFilteredInspections sample_env
       (setSelectedCategory "" (filtering_dashboard scenario_records))))
    by (left; reflexivity).
  destruct (category_filter_matches_category_cell sample_env "en" _ _ H1
              eq_refl ltac:(discriminate) H2)
    as (c & Hf & _ & _ & _ & H3 & H4).
  split; [reflexivity|]. split; [exact H2|]. split; [reflexivity|].
  split; [exact H3|].
  rewrite H4. cbn in Hf. injection Hf as <-. reflexivity.
Defined.

(** ** The two status colourings *)

(** X7. The badge of the table of recent inspections and [getStatusColor],
    used by every other list, give a status the same colour except
    [in_progress], [under_review] and [completed]: the table has a colour
    of its own for the first two and none for the third. *)
Theorem recent_table_colour_agrees (s : string) :
  recentStatusColor s = getStatusColor s <->
  ~ In s ["in_progress"; "under_review"; "completed"].
Proof.
  unfold recentStatusColor, getStatusColor, switch, getStatusColor_cases.
  cbn [List.find existsb fst snd In].
  destruct (String.eqb_spec s "approved") as [->|n1];
    [cbn; split; [intros _ [H|[H|[H|[]]]]; discriminate | reflexivity]|].
  destruct (String.eqb_spec s "completed") as [->|n2];
    [cbn; split; [discriminate | intros H; exfalso; apply H; auto]|].
  destruct (String.eqb_spec s "submitted") as [->|n3];
    [cbn; split; [intros _ [H|[H|[H|[]]]]; discriminate | reflexivity]|].
  destruct (String.eqb_spec s "under_review") as [->|n4];
    [cbn; split; [discriminate | intros H; exfalso; apply H; auto]|].
  destruct (String.eqb_spec s "draft") as [->|n5];
    [cbn; split; [intros _ [H|[H|[H|[]]]]; discriminate | reflexivity]|].
  destruct (String.eqb_spec s "pending") as [->|n6];
    [cbn; split; [intros _ [H|[H|[H|[]]]]; discriminate | reflexivity]|].
  destruct (String.eqb_spec s "rejected") as [->|n7];
    [cbn; split; [intros _ [H|[H|[H|[]]]]; discriminate | reflexivity]|].
  destruct (String.eqb_spec s "reassigned") as [->|n8];
    [cbn; split; [intros _ [H|[H|[H|[]]]]; discriminate | reflexivity]|].
  destruct (String.eqb_spec s "in_progress") as [->|n9];
    [cbn; split; [discriminate | intros H; exfalso; apply H; auto]|].
  cbn. split; [|reflexivity].
  intros _ [H|[H|[H|[]]]]; congruence.
Qed.

(** ** The completion rate *)

(** X8. For a record set of a size a JavaScript array can have, the rate is
    an integer between 0 and 100 within half a point of the exact
    percentage [100 * completed / total]: the rounding of the quotient
    and of the product in binary64 never costs a full point. *)
Theorem completion_rate_within_half_point (st : Dashboard) :
  (Z.of_nat (List.length (inspections st)) < 2 ^ 32)%Z ->
  exists n : Z,
    getCompletionRate st = JS.of_Z n /\ (0 <= n <= 100)%Z /\
    (Z.abs (2 * (100 * Z.of_nat (completed (getStatusCounts st))) -
            2 * n * Z.of_nat (total (getStatusCounts st)))
     <= Z.of_nat (total (getStatusCounts st)))%Z.
Proof.
  intros Hlen.
  destruct (getCompletionRate_near_spec st Hlen) as (n & Hn & Hr & Hcases).
  exists n. split; [exact Hn|]. split; [exact Hr|].
  revert Hcases. unfold completion_rate_spec.
  set (c := Z.of_nat (completed (getStatusCounts st))).
  set (k := Z.of_nat (total (getStatusCounts st))).
  destruct (Nat.eqb_spec (total (getStatusCounts st)) 0) as [E|E].
  - assert (Hk : k = 0%Z) by (unfold k; rewrite E; reflexivity).
    assert (Hc : c = 0%Z)
      by (pose proof (completed_le_total st); unfold c; lia).
    rewrite Hk, Hc. intros [-> | [-> H]]; lia.
  - assert (Hk : (0 < k)%Z) by (unfold k; lia).
    pose proof (round_half_up_spec (100 * c) k Hk) as Hs.
    set (r := round_half_up (100 * c) k) in *.
    assert (E1 : ((2 * r - 1) * k = 2 * (r * k) - k)%Z) by ring.
    assert (E2 : ((2 * r + 1) * k = 2 * (r * k) + k)%Z) by ring.
    intros [-> | [-> H]].
    + lia.
    + replace (2 * (r - 1) * k)%Z with (2 * (r * k) - 2 * k)%Z by ring.
      replace (2 * k * r)%Z with (2 * (r * k))%Z in H by ring. lia.
Qed.

Lemma completion_rate_within_half_point_witness :
  exists n : Z,
    getCompletionRate (sample_dashboard forty_records) = JS.of_Z n /\
    (0 <= n <= 100)%Z /\
    (Z.abs (2 * (100 * 23) - 2 * n * 40) <= 40)%Z.
Proof.
  apply (completion_rate_within_half_point (sample_dashboard forty_records)).
  vm_compute. reflexivity.
Defined.

(** X9. The two ends of the scale are exact: a non-empty record set whose
    records are all approved has rate 100, and a record set without an
    approved record has rate 0. *)
Theorem completion_rate_extremes (st : Dashboard) :
  (Z.of_nat (List.length (inspections st)) < 2 ^ 32)%Z ->
  (inspections st <> [] ->
   Forall (fun i => status i = "approved") (inspections st) ->
   getCompletionRate st = JS.of_Z 100) /\
  (Forall (fun i => status i <> "approved") (inspections st) ->
   getCompletionRate st = JS.of_Z 0).
Proof.
  intros Hlen.
  destruct (getCompletionRate_near_spec st Hlen) as (n & Hn & Hr & Hcases).
  rewrite Hn. unfold completion_rate_spec in Hcases.
  cbn [getStatusCounts completed total] in Hcases.
  split.
  - intros Hne Hall.
    assert (Hc : List.filter (fun i => String.eqb (status i) "approved")
                   (inspections st) = inspections st).
    { clear - Hall. induction Hall as [|a l Ha _ IH]; cbn; [reflexivity|].
      rewrite Ha. cbn. now f_equal. }
    rewrite Hc in Hcases.
    destruct (inspections st) as [|a l]; [contradiction|].
    cbn [Nat.eqb List.length] in Hcases.
    set (k := Z.of_nat (S (List.length l))) in *.
    assert (Hk : (0 < k)%Z) by (unfold k; lia).
    assert (Hround : round_half_up (100 * k) k = 100%Z).
    { unfold round_half_up. symmetry. apply (Z.div_unique _ _ _ k); lia. }
    rewrite Hround in Hcases. f_equal. lia.
  - intros Hnone.
    assert (Hc : List.filter (fun i => String.eqb (status i) "approved")
                   (inspections st) = []).
    { clear - Hnone. induction Hnone as [|a l Ha _ IH]; cbn; [reflexivity|].
      apply String.eqb_neq in Ha. now rewrite Ha. }
    rewrite Hc in Hcases. cbn [List.length] in Hcases.
    destruct (Nat.eqb_spec (List.length (inspections st)) 0) as [E|E].
    + f_equal. lia.
    + assert (Hround : round_half_up (100 * Z.of_nat 0)
                         (Z.of_nat (List.length (inspections st))) = 0%Z).
      { unfold round_half_up. apply Z.div_small. lia. }
      rewrite Hround in Hcases. f_equal. lia.
Qed.

Lemma completion_rate_extremes_witness :
  getCompletionRate
    (sample_dashboard (repeat (sample_inspection "a" "approved" None None) 7)) =
    JS.of_Z 100 /\
  getCompletionRate
    (sample_dashboard (repeat (sample_inspection "b" "draft" None None) 7)) =
    JS.of_Z 0.
Proof.
  split.
  - apply (completion_rate_extremes
             (sample_dashboard
                (repeat (sample_inspection "a" "approved" None None) 7))).
    + vm_compute. reflexivity.
    + discriminate.
    + repeat constructor.
  - apply (completion_rate_extremes
             (sample_dashboard
                (repeat (sample_inspection "b" "draft" None None) 7))).
    + vm_compute. reflexivity.
    + repeat (constructor; [discriminate|]). constructor.
Defined.

(** ** Loading the data *)

Lemma app_assoc_4 {A : Type} (l : list A) (a b c : A) :
  (((l ++ [a]) ++ [b]) ++ [c])%list = (l ++ [a; b; c])%list.
Proof. now rewrite <- !app_assoc. Qed.

(** X10. [fetchAllData] is all or nothing: it sends its three requests, and
    either all three answer and the records, the categories and the
    inspectors of the component are the answers, or all three lists are
    left as they were and the failure is written to the console, with no
    message to the user. Either way the loading flag ends false and the
    criteria, the modal and the store are untouched. *)
Theorem fetchAllData_all_or_nothing (B : Backend) (w : World) :
  rows (fetchAllData B w) = rows w /\
  alerts (fetchAllData B w) = alerts w /\
  calls (fetchAllData B w) =
    (calls w ++ [GetInspections; FetchCategories; FetchInspectors])%list /\
  isLoading (ui (fetchAllData B w)) = false /\
  (searchTerm (ui (fetchAllData B w)) = searchTerm (ui w) /\
   selectedCategory (ui (fetchAllData B w)) = selectedCategory (ui w) /\
   selectedStatus (ui (fetchAllData B w)) = selectedStatus (ui w) /\
   columnFilters (ui (fetchAllData B w)) = columnFilters (ui w) /\
   showRevisitModal (ui (fetchAllData B w)) = showRevisitModal (ui w) /\
   revisitInspectionId (ui (fetchAllData B w)) = revisitInspectionId (ui w) /\
   selectedInspector (ui (fetchAllData B w)) = selectedInspector (ui w)) /\
  ((exists inspectionsData categoriesData inspectorsData,
      getInspections B (rows w) = inr inspectionsData /\
      fetchCategories B = inr categoriesData /\
      fetchInspectors B = inr inspectorsData /\
      inspections (ui (fetchAllData B w)) = inspectionsData /\
      categories (ui (fetchAllData B w)) = categoriesData /\
      availableInspectors (ui (fetchAllData B w)) = inspectorsData /\
      console (fetchAllData B w) = console w) \/
   ((exists message,
       getInspections B (rows w) = inl message \/
       fetchCategories B = inl message \/ fetchInspectors B = inl message) /\
    inspections (ui (fetchAllData B w)) = inspections (ui w) /\
    categories (ui (fetchAllData B w)) = categories (ui w) /\
    availableInspectors (ui (fetchAllData B w)) = availableInspectors (ui w) /\
    console (fetchAllData B w) = (console w ++ ["Error fetching data:"])%list)).
Proof.
  unfold fetchAllData. cbn [rows on_ui send].
  destruct (getInspections B (rows w)) as [m1|d1];
    destruct (fetchCategories B) as [m2|d2];
    destruct (fetchInspectors B) as [m3|d3]; cbn;
    rewrite app_assoc_4;
    (split; [reflexivity|]); (split; [reflexivity|]);
    (split; [reflexivity|]); (split; [reflexivity|]);
    (split; [repeat split|]);
    try (right; split; [eexists; eauto | repeat split]; fail).
  left. exists d1, d2, d3. repeat split.
Qed.

(** X11. [fetchInspectionsData] changes nothing of the component but the
    records, and nothing of the store. When the query answers, the
    records are the answer and nothing is shown; otherwise the records
    stay and exactly one message is shown: the network message when the
    error mentions ["Failed to fetch"], else the session message when it
    mentions ["JWT"], else the error itself. Without a client no request
    is sent. *)
Theorem fetchInspectionsData_outcome (B : Backend) (w : World) :
  rows (fetchInspectionsData B w) = rows w /\
  ui (fetchInspectionsData B w) =
    setInspections (inspections (ui (fetchInspectionsData B w))) (ui w) /\
  (supabase_client B = false ->
   calls (fetchInspectionsData B w) = calls w /\
   inspections (ui (fetchInspectionsData B w)) = inspections (ui w) /\
   alerts (fetchInspectionsData B w) =
     (alerts w ++
      ["Error loading inspections: Supabase client not initialized"])%list) /\
  (supabase_client B = true ->
   calls (fetchInspectionsData B w) = (calls w ++ [SelectInspections])%list /\
   (forall data, select_inspections B (rows w) = inr data ->
      inspections (ui (fetchInspectionsData B w)) = data /\
      alerts (fetchInspectionsData B w) = alerts w) /\
   (forall message, select_inspections B (rows w) = inl message ->
      inspections (ui (fetchInspectionsData B w)) = inspections (ui w) /\
      alerts (fetchInspectionsData B w) =
        (alerts w ++
         [if JS.includes ("Database error: " ++ message)%string
               "Failed to fetch"
          then "Network connection error. Please check your internet connection and try again."
          else if JS.includes ("Database error: " ++ message)%string "JWT"
               then "Session expired. Please sign in again."
               else ("Error loading inspections: Database error: " ++
                     message)%string])%list)).
Proof.
  unfold fetchInspectionsData, fetchInspections_failed.
  destruct (supabase_client B); cbn [negb].
  - cbn [rows send console_write].
    destruct (select_inspections B (rows w)) as [m|d].
    + destruct (JS.includes ("Database error: " ++ m) "Failed to fetch") eqn:E1;
        [|destruct (JS.includes ("Database error: " ++ m) "JWT") eqn:E2];
        (split; [reflexivity|]); (split; [destruct w as [[] ? ? ? ?]; reflexivity|]);
        (split; [discriminate|]); intros _;
        (split; [reflexivity|]); (split; [discriminate|]);
        intros m' [= <-]; rewrite E1, ?E2; split; reflexivity.
    + split; [reflexivity|]. split; [reflexivity|]. split; [discriminate|].
      intros _. split; [reflexivity|]. split; [|discriminate].
      intros d' [= <-]. split; reflexivity.
  - cbn. split; [reflexivity|].
    split; [destruct w as [[] ? ? ? ?]; reflexivity|].
    split; [|discriminate]. intros _. repeat split.
Qed.

(** ** Completing and reassigning *)

(** X12. What the user is told by [handleCompleteInspection]. Without a client
    nothing happens and nothing is said. When the update fails, the store
    and the component stay as they were and the error is shown. When the
    update succeeds, the completion message is always the last one shown,
    also when the refresh that precedes it failed: then an error message
    comes first and the list on screen is the stale one. *)
Theorem handleCompleteInspection_messages (B : Backend) (inspectionId : string)
    (w : World) :
  (supabase_client B = false -> handleCompleteInspection B inspectionId w = w) /\
  (supabase_client B = true ->
   calls (handleCompleteInspection B inspectionId w) =
     (calls w ++ [UpdateStatus inspectionId "approved"] ++
      match update_error B inspectionId (rows w) with
      | Some _ => []
      | None => [SelectInspections]
      end)%list /\
   (forall message, update_error B inspectionId (rows w) = Some message ->
      rows (handleCompleteInspection B inspectionId w) = rows w /\
      ui (handleCompleteInspection B inspectionId w) = ui w /\
      alerts (handleCompleteInspection B inspectionId w) =
        (alerts w ++ [("Error completing inspection: " ++ message)%string])%list) /\
   (update_error B inspectionId (rows w) = None ->
    (forall data,
       select_inspections B
         (update_eq_id (set_status "approved") inspectionId (rows w)) = inr data ->
       inspections (ui (handleCompleteInspection B inspectionId w)) = data /\
       alerts (handleCompleteInspection B inspectionId w) =
         (alerts w ++ ["Inspection marked as completed"])%list) /\
    (forall message,
       select_inspections B
         (update_eq_id (set_status "approved") inspectionId (rows w)) =
         inl message ->
       inspections (ui (handleCompleteInspection B inspectionId w)) =
         inspections (ui w) /\
       exists shown,
         alerts (handleCompleteInspection B inspectionId w) =
           (alerts w ++ [shown; "Inspection marked as completed"])%list))).
Proof.
  unfold handleCompleteInspection.
  destruct (supabase_client B) eqn:Hc; cbn [negb];
    (split; [try discriminate; reflexivity|]); [|discriminate].
  intros _. cbn [rows send].
  destruct (update_error B inspectionId (rows w)) as [m|] eqn:Hu.
  - split; [reflexivity|]. split; [|discriminate].
    intros m' [= <-]. repeat split.
  - unfold fetchInspectionsData, fetchInspections_failed. rewrite Hc.
    cbn [negb rows set_rows send console_write].
    destruct (select_inspections B
                (update_eq_id (set_status "approved") inspectionId (rows w)))
      as [m|d].
    + split; [|split; [discriminate|]].
      * destruct (JS.includes _ "Failed to fetch");
          [|destruct (JS.includes _ "JWT")]; cbn;
          rewrite <- app_assoc; reflexivity.
      * intros _. split; [discriminate|]. intros m' [= <-].
        destruct (JS.includes _ "Failed to fetch");
          [|destruct (JS.includes _ "JWT")]; cbn;
          (split; [reflexivity|]); eexists; rewrite <- app_assoc;
          reflexivity.
    + split; [|split; [discriminate|]].
      * cbn. rewrite <- app_assoc. reflexivity.
      * intros _. split; [|discriminate]. intros d' [= <-].
        split; reflexivity.
Qed.

(** X13. [handleConfirmRevisit] with an inspector selected: the loading flag
    ends false and one reassignment is requested for the inspection and
    the inspector of the modal. When the request fails, the modal stays
    as it is, the store and the records are unchanged and the error is
    shown; when it succeeds, the modal is closed, the success message is
    shown and the three lists are requested again from the new rows. *)
Theorem handleConfirmRevisit_outcome (B : Backend) (w : World) :
  selectedInspector (ui w) <> "" ->
  isLoading (ui (handleConfirmRevisit B w)) = false /\
  revisitInspectionId (ui (handleConfirmRevisit B w)) =
    revisitInspectionId (ui w) /\
  selectedInspector (ui (handleConfirmRevisit B w)) = selectedInspector (ui w) /\
  (forall message,
     reassignInspection B (revisitInspectionId (ui w))
       (selectedInspector (ui w)) (rows w) = inl message ->
     rows (handleConfirmRevisit B w) = rows w /\
     calls (handleConfirmRevisit B w) =
       (calls w ++
        [ReassignInspection (revisitInspectionId (ui w))
           (selectedInspector (ui w))])%list /\
     showRevisitModal (ui (handleConfirmRevisit B w)) =
       showRevisitModal (ui w) /\
     inspections (ui (handleConfirmRevisit B w)) = inspections (ui w) /\
     alerts (handleConfirmRevisit B w) =
       (alerts w ++ [("Error sending for revisit: " ++ message)%string])%list) /\
  (forall rows',
     reassignInspection B (revisitInspectionId (ui w))
       (selectedInspector (ui w)) (rows w) = inr rows' ->
     rows (handleConfirmRevisit B w) = rows' /\
     calls (handleConfirmRevisit B w) =
       (calls w ++
        [ReassignInspection (revisitInspectionId (ui w))
           (selectedInspector (ui w));
         GetInspections; FetchCategories; FetchInspectors])%list /\
     showRevisitModal (ui (handleConfirmRevisit B w)) = false /\
     alerts (handleConfirmRevisit B w) =
       (alerts w ++ ["Inspection assigned for revisit successfully"])%list /\
     (forall data categoriesData inspectorsData,
        getInspections B rows' = inr data ->
        fetchCategories B = inr categoriesData ->
        fetchInspectors B = inr inspectorsData ->
        inspections (ui (handleConfirmRevisit B w)) = data)).
Proof.
  intros Hsel. unfold handleConfirmRevisit.
  destruct (JS.is_empty (selectedInspector (ui w))) eqn:He;
    [apply is_empty_true in He; contradiction|].
  cbn [ui rows on_ui send setIsLoading revisitInspectionId selectedInspector].
  destruct (reassignInspection B (revisitInspectionId (ui w))
              (selectedInspector (ui w)) (rows w)) as [m|r'].
  - split; [reflexivity|]. split; [reflexivity|]. split; [reflexivity|].
    split; [|discriminate]. intros m' [= <-]. repeat split.
  - unfold fetchAllData.
    cbn [ui rows on_ui send set_rows alert].
    split; [reflexivity|].
    destruct (getInspections B r') as [m1|d1] eqn:E1;
      destruct (fetchCategories B) as [m2|d2] eqn:E2;
      destruct (fetchInspectors B) as [m3|d3] eqn:E3; cbn;
      (split; [reflexivity|]); (split; [reflexivity|]);
      (split; [discriminate|]); intros rows' [= <-];
      (split; [reflexivity|]);
      (split; [rewrite app_assoc_4, <- app_assoc; reflexivity|]);
      (split; [reflexivity|]); (split; [reflexivity|]);
      intros data cd ids H1 H2 H3; congruence.
Qed.

Lemma handleConfirmRevisit_outcome_witness :
  selectedInspector
    (ui (on_ui (setSelectedInspector "user-42")
           (handleRevisitInspection "insp-3" sample_world))) <> "" /\
  isLoading
    (ui (handleConfirmRevisit sample_backend
           (on_ui (setSelectedInspector "user-42")
              (handleRevisitInspection "insp-3" sample_world)))) = false /\
  showRevisitModal
    (ui (handleConfirmRevisit sample_backend
           (on_ui (setSelectedInspector "user-42")
              (handleRevisitInspection "insp-3" sample_world)))) = false.
Proof.
  assert (H : selectedInspector
    (ui (on_ui (setSelectedInspector "user-42")
           (handleRevisitInspection "insp-3" sample_world))) <> "")
    by discriminate.
  destruct (handleConfirmRevisit_outcome sample_backend _ H)
    as (H1 & _ & _ & _ & H2).
  split; [exact H|]. split; [exact H1|].
  destruct (H2 _ eq_refl) as (_ & _ & H3 & _). exact H3.
Defined.

(** ** Completing and the counters *)

Lemma length_filter_perm {A : Type} (f : A -> bool) (l l' : list A) :
  Permutation l l' ->
  List.length (List.filter f l) = List.length (List.filter f l').
Proof.
  induction 1 as [|x l l' _ IH|x y l|l l' l'' _ IH1 _ IH2]; cbn.
  - reflexivity.
  - destruct (f x); cbn; now rewrite IH.
  - destruct (f x), (f y); reflexivity.
  - now rewrite IH1.
Qed.

Lemma length_filter_update (f g : Inspection -> bool)
    (patch : Inspection -> Inspection) (inspectionId : string)
    (l : list Inspection) :
  (forall r, f (if String.eqb (id r) inspectionId then patch r else r) = g r) ->
  List.length (List.filter f (update_eq_id patch inspectionId l)) =
  List.length (List.filter g l).
Proof.
  intros H. unfold update_eq_id. induction l as [|a l IH]; [reflexivity|].
  cbn [List.map]. rewrite !length_filter_cons, IH, H. reflexivity.
Qed.

(** X14. Completing an inspection shows in the cards: when the update succeeds
    and the refresh answers with the rows of the store in some order, the
    total is the number of rows, and the completed counter counts the
    rows that were approved before and the rows with the completed id;
    the pending and submitted counters count the other rows that are
    pending or submitted. *)
Theorem complete_then_counters (B : Backend) (inspectionId : string)
    (w : World) (data : list Inspection) :
  supabase_client B = true ->
  update_error B inspectionId (rows w) = None ->
  select_inspections B
    (update_eq_id (set_status "approved") inspectionId (rows w)) = inr data ->
  Permutation data
    (update_eq_id (set_status "approved") inspectionId (rows w)) ->
  total (getStatusCounts (ui (handleCompleteInspection B inspectionId w))) =
    List.length (rows w) /\
  completed (getStatusCounts (ui (handleCompleteInspection B inspectionId w))) =
    List.length
      (List.filter
         (fun r => String.eqb (id r) inspectionId ||
                   String.eqb (status r) "approved") (rows w)) /\
  pending (getStatusCounts (ui (handleCompleteInspection B inspectionId w))) =
    List.length
      (List.filter
         (fun r => negb (String.eqb (id r) inspectionId) &&
                   array_includes ["planned"; "in_progress"; "draft"] (status r))
         (rows w)) /\
  submitted (getStatusCounts (ui (handleCompleteInspection B inspectionId w))) =
    List.length
      (List.filter
         (fun r => negb (String.eqb (id r) inspectionId) &&
                   String.eqb (status r) "submitted") (rows w)).
Proof.
  intros Hc Hu Hs Hp.
  assert (Hi : inspections (ui (handleCompleteInspection B inspectionId w))
               = data).
  { unfold handleCompleteInspection, fetchInspectionsData.
    rewrite Hc. cbn [negb rows send set_rows console_write]. rewrite Hu.
    cbn [rows send set_rows console_write]. rewrite Hs. reflexivity. }
  unfold getStatusCounts. cbn [total completed pending submitted].
  rewrite Hi.
  rewrite (Permutation_length Hp), !(length_filter_perm _ _ _ Hp).
  split; [unfold update_eq_id; apply length_map|].
  split; [|split]; apply length_filter_update; intros r;
    destruct (String.eqb (id r) inspectionId); reflexivity.
Qed.

Lemma complete_then_counters_witness :
  getStatusCounts (ui sample_world) =
    {| total := 4; pending := 1; completed := 2; submitted := 1 |} /\
  getStatusCounts
    (ui (handleCompleteInspection sample_backend "insp-3" sample_world)) =
    {| total := 4; pending := 1; completed := 3; submitted := 0 |}.
Proof.
  split; [reflexivity|].
  destruct (complete_then_counters sample_backend "insp-3" sample_world
              (update_eq_id (set_status "approved") "insp-3" (rows sample_world))
              eq_refl eq_refl eq_refl (Permutation_refl _))
    as (H1 & H2 & H3 & H4).
  destruct (getStatusCounts
              (ui (handleCompleteInspection sample_backend "insp-3" sample_world)))
    as [a b c d].
  cbn [total completed pending submitted] in *. subst. reflexivity.
Defined.

(** ** The photo viewer *)

Lemma viewerStep_in_range (ev : ViewerEvent) (pv pv' : PhotoViewer) :
  (showPhotoModal pv = true ->
   (0 <= selectedPhotoIndex pv < photoCount pv)%Z) ->
  viewerStep ev pv = Some pv' ->
  showPhotoModal pv' = true ->
  (0 <= selectedPhotoIndex pv' < photoCount pv')%Z.
Proof.
  intros Hinv. unfold viewerStep, handleKeyPress, modalRendered.
  destruct (showPhotoModal pv) eqn:Hs; cbn [andb];
    [specialize (Hinv eq_refl) | clear Hinv].
  - destruct (Z.ltb_spec 0 (photoCount pv)); [|lia].
    destruct ev as [key| | | | |]; cbn [andb].
    + destruct (String.eqb key "ArrowLeft"); cbn [andb];
        [destruct (Z.ltb_spec 0 (selectedPhotoIndex pv));
           [intros [= <-] _; cbn; unfold photoCount in *; cbn; lia|]|];
        (destruct (String.eqb key "ArrowRight"); cbn [andb];
         [destruct (Z.ltb_spec (selectedPhotoIndex pv) (photoCount pv - 1));
            [intros [= <-] _; cbn; unfold photoCount in *; cbn; lia|]|];
         (destruct (String.eqb key "Escape");
          [intros [= <-]; cbn; discriminate
          | intros [= <-] _; exact Hinv])).
    + intros [= <-]. cbn. discriminate.
    + destruct (Z.ltb_spec 0 (selectedPhotoIndex pv)); [|discriminate].
      intros [= <-] _. cbn. unfold photoCount in *. cbn. lia.
    + destruct (Z.ltb_spec (selectedPhotoIndex pv) (photoCount pv - 1));
        [|discriminate].
      intros [= <-] _. cbn. unfold photoCount in *. cbn. lia.
    + destruct (Z.eqb_spec (selectedPhotoIndex pv) 0); [discriminate|].
      intros [= <-] _. cbn. unfold photoCount in *. cbn. lia.
    + destruct (Z.eqb_spec (selectedPhotoIndex pv) (photoCount pv - 1));
        [discriminate|].
      intros [= <-] _. cbn. unfold photoCount in *. cbn. lia.
  - destruct ev; try discriminate. intros [= <-] H. congruence.
Qed.

Lemma handleViewInspectionPhotos_in_range (env : Env) (B : Backend)
    (select_photos : string -> string + list InspectionPhoto)
    (inspection : Inspection) (s : PhotoViewer * World) :
  (showPhotoModal (fst s) = true ->
   (0 <= selectedPhotoIndex (fst s) < photoCount (fst s))%Z) ->
  showPhotoModal
    (fst (handleViewInspectionPhotos env B select_photos inspection s)) = true ->
  (0 <= selectedPhotoIndex
          (fst (handleViewInspectionPhotos env B select_photos inspection s))
   < photoCount
       (fst (handleViewInspectionPhotos env B select_photos inspection s)))%Z.
Proof.
  destruct s as [pv w]. unfold handleViewInspectionPhotos. cbn [fst].
  destruct (supabase_client B); cbn [negb fst]; [|auto].
  destruct (select_photos (id inspection)) as [m|[|p data]]; cbn [fst]; auto.
  intros _ _. unfold photoCount. cbn. lia.
Qed.

Lemma viewerAct_in_range (env : Env) (B : Backend) (a : ViewerAction)
    (s : PhotoViewer * World) :
  (showPhotoModal (fst s) = true ->
   (0 <= selectedPhotoIndex (fst s) < photoCount (fst s))%Z) ->
  showPhotoModal (fst (viewerAct env B s a)) = true ->
  (0 <= selectedPhotoIndex (fst (viewerAct env B s a))
   < photoCount (fst (viewerAct env B s a)))%Z.
Proof.
  intros Hinv. destruct a as [ev | inspection answer]; cbn [viewerAct].
  - destruct (viewerStep ev (fst s)) as [pv'|] eqn:E; [|exact Hinv].
    cbn [fst]. exact (viewerStep_in_range ev (fst s) pv' Hinv E).
  - now apply handleViewInspectionPhotos_in_range.
Qed.

Lemma viewerRun_in_range (env : Env) (B : Backend)
    (actions : list ViewerAction) (s : PhotoViewer * World) :
  (showPhotoModal (fst s) = true ->
   (0 <= selectedPhotoIndex (fst s) < photoCount (fst s))%Z) ->
  showPhotoModal (fst (viewerRun env B actions s)) = true ->
  (0 <= selectedPhotoIndex (fst (viewerRun env B actions s))
   < photoCount (fst (viewerRun env B actions s)))%Z.
Proof.
  unfold viewerRun. revert s.
  induction actions as [|a l IH]; intros s Hinv; cbn [fold_left].
  - exact Hinv.
  - apply IH. now apply viewerAct_in_range.
Qed.

Lemma currentPhoto_in_range (pv : PhotoViewer) :
  (0 <= selectedPhotoIndex pv < photoCount pv)%Z ->
  exists photo, currentPhoto pv = Some photo.
Proof.
  intros H. unfold currentPhoto.
  destruct (Z.ltb_spec (selectedPhotoIndex pv) 0); [lia|].
  destruct (nth_error (viewingPhotos pv) (Z.to_nat (selectedPhotoIndex pv)))
    as [p|] eqn:E; [now exists p|].
  apply nth_error_None in E. unfold photoCount in H. lia.
Qed.

(** X15. The viewer always has a photo to show: after any sequence of key
    presses, clicks in the modal and clicks on the photos buttons since
    the component was mounted, if the modal is open the index is within
    the photos loaded, so the photo of the index exists and the counter
    reads between 1 and the number of photos. *)
Theorem viewer_always_has_photo (env : Env) (B : Backend) (w : World)
    (actions : list ViewerAction) :
  showPhotoModal (fst (viewerRun env B actions (initialViewer, w))) = true ->
  (1 <= selectedPhotoIndex
          (fst (viewerRun env B actions (initialViewer, w))) + 1
   <= photoCount (fst (viewerRun env B actions (initialViewer, w))))%Z /\
  modalRendered (fst (viewerRun env B actions (initialViewer, w))) = true /\
  exists photo,
    currentPhoto (fst (viewerRun env B actions (initialViewer, w))) = Some photo.
Proof.
  intros Hs.
  assert (H : (0 <= selectedPhotoIndex
                      (fst (viewerRun env B actions (initialViewer, w)))
               < photoCount
                   (fst (viewerRun env B actions (initialViewer, w))))%Z).
  { apply viewerRun_in_range; [discriminate | exact Hs]. }
  split; [lia|]. split.
  - unfold modalRendered. rewrite Hs. cbn. apply Z.ltb_lt. lia.
  - now apply currentPhoto_in_range.
Qed.

Lemma viewer_always_has_photo_witness :
  fst (viewerRun sample_env sample_backend sample_viewer_session
         (initialViewer, sample_world)) = sample_viewer /\
  currentPhoto
    (fst (viewerRun sample_env sample_backend sample_viewer_session
            (initialViewer, sample_world))) =
    Some (sample_photo 1 "kitchen.jpg").
Proof.
  split; [reflexivity|].
  destruct (viewer_always_has_photo sample_env sample_backend sample_world
              sample_viewer_session eq_refl) as (_ & _ & photo & H).
  rewrite H. revert H. vm_compute. intros [= <-]. reflexivity.
Defined.

(** X16. With the index within the photos, the controls of the modal agree:
    each button under the photo is enabled exactly when the arrow over
    the photo on its side is rendered and does what the arrow and the
    arrow key do, so the clamping by [Math.max] and [Math.min] never
    takes effect; the close button does what Escape does. *)
Theorem viewer_controls_agree (pv : PhotoViewer) :
  modalRendered pv = true ->
  (0 <= selectedPhotoIndex pv < photoCount pv)%Z ->
  viewerStep ClickPrevious pv = viewerStep ClickOverlayPrevious pv /\
  viewerStep ClickNext pv = viewerStep ClickOverlayNext pv /\
  (forall pv', viewerStep ClickOverlayPrevious pv = Some pv' ->
     handleKeyPress "ArrowLeft" pv = pv') /\
  (forall pv', viewerStep ClickOverlayNext pv = Some pv' ->
     handleKeyPress "ArrowRight" pv = pv') /\
  viewerStep ClickClose pv = Some (handleKeyPress "Escape" pv).
Proof.
  intros Hm Hr. unfold viewerStep, handleKeyPress. rewrite Hm.
  unfold modalRendered in Hm. rewrite Hm. cbn [andb String.eqb].
  change ("ArrowLeft" =? "ArrowLeft")%string with true.
  change ("ArrowRight" =? "ArrowLeft")%string with false.
  change ("ArrowRight" =? "ArrowRight")%string with true.
  change ("Escape" =? "ArrowLeft")%string with false.
  change ("Escape" =? "ArrowRight")%string with false.
  change ("Escape" =? "Escape")%string with true.
  cbn [andb].
  destruct (Z.ltb_spec 0 (selectedPhotoIndex pv));
    destruct (Z.eqb_spec (selectedPhotoIndex pv) 0); try lia;
    destruct (Z.ltb_spec (selectedPhotoIndex pv) (photoCount pv - 1));
    destruct (Z.eqb_spec (selectedPhotoIndex pv) (photoCount pv - 1));
    try lia; cbn [negb];
    rewrite ?Z.max_r, ?Z.min_r by lia;
    repeat split; try reflexivity; try discriminate;
    intros pv' [= <-]; reflexivity.
Qed.

Lemma viewer_controls_agree_witness :
  viewerStep ClickPrevious sample_viewer =
    Some (setSelectedPhotoIndex 0 sample_viewer) /\
  viewerStep ClickOverlayPrevious sample_viewer =
    Some (setSelectedPhotoIndex 0 sample_viewer) /\
  handleKeyPress "ArrowLeft" sample_viewer =
    setSelectedPhotoIndex 0 sample_viewer.
Proof.
  destruct (viewer_controls_agree sample_viewer eq_refl)
    as (H1 & _ & H3 & _).
  { unfold photoCount. cbn. lia. }
  split; [reflexivity|]. split; [rewrite <- H1; reflexivity|].
  apply H3. rewrite <- H1. reflexivity.
Defined.

(** X17. With the modal open, going forward and back with the arrow
    keys returns to the same state when the photo shown has a next one,
    and going back and forward when it has a previous one. ArrowLeft at
    the first photo and ArrowRight at the last one change nothing. No
    key press changes the photos loaded, and no key does anything while
    the modal is closed. *)
Theorem viewer_arrow_keys (pv : PhotoViewer) :
  (showPhotoModal pv = true ->
   (0 <= selectedPhotoIndex pv < photoCount pv - 1)%Z ->
   handleKeyPress "ArrowLeft" (handleKeyPress "ArrowRight" pv) = pv) /\
  (showPhotoModal pv = true ->
   (0 < selectedPhotoIndex pv < photoCount pv)%Z ->
   handleKeyPress "ArrowRight" (handleKeyPress "ArrowLeft" pv) = pv) /\
  (selectedPhotoIndex pv = 0%Z -> handleKeyPress "ArrowLeft" pv = pv) /\
  (selectedPhotoIndex pv = (photoCount pv - 1)%Z ->
   handleKeyPress "ArrowRight" pv = pv) /\
  (forall key, viewingPhotos (handleKeyPress key pv) = viewingPhotos pv) /\
  (forall key, showPhotoModal pv = false -> handleKeyPress key pv = pv).
Proof.
  unfold handleKeyPress. destruct pv as [s i l]. unfold photoCount.
  cbn [viewingPhotos showPhotoModal selectedPhotoIndex].
  change ("ArrowLeft" =? "ArrowLeft")%string with true.
  change ("ArrowRight" =? "ArrowLeft")%string with false.
  change ("ArrowRight" =? "ArrowRight")%string with true.
  change ("ArrowLeft" =? "ArrowRight")%string with false.
  change ("ArrowLeft" =? "Escape")%string with false.
  change ("ArrowRight" =? "Escape")%string with false.
  cbn [andb].
  split; [|split; [|split; [|split; [|split]]]].
  - intros -> Hi. cbn [andb].
    rewrite (proj2 (Z.ltb_lt 0 (Z.of_nat _))) by lia.
    rewrite (proj2 (Z.ltb_lt i _)) by lia.
    unfold setSelectedPhotoIndex.
    cbn [viewingPhotos showPhotoModal selectedPhotoIndex andb].
    rewrite (proj2 (Z.ltb_lt 0 (Z.of_nat _))) by lia.
    rewrite (proj2 (Z.ltb_lt 0 (i + 1))) by lia.
    f_equal. lia.
  - intros -> Hi. cbn [andb].
    rewrite (proj2 (Z.ltb_lt 0 (Z.of_nat _))) by lia.
    rewrite (proj2 (Z.ltb_lt 0 i)) by lia.
    unfold setSelectedPhotoIndex.
    cbn [viewingPhotos showPhotoModal selectedPhotoIndex andb].
    rewrite (proj2 (Z.ltb_lt 0 (Z.of_nat _))) by lia.
    rewrite (proj2 (Z.ltb_lt (i - 1) _)) by lia.
    f_equal. lia.
  - intros ->. rewrite Z.ltb_irrefl.
    destruct (s && _); reflexivity.
  - intros ->. rewrite Z.ltb_irrefl.
    destruct (s && _); reflexivity.
  - intros key.
    destruct (s && _); [|reflexivity].
    destruct (_ && _); [reflexivity|].
    destruct (_ && _); [reflexivity|].
    destruct (String.eqb key "Escape"); reflexivity.
  - intros key ->. reflexivity.
Qed.

Lemma viewer_arrow_keys_witness :
  handleKeyPress "ArrowLeft" (handleKeyPress "ArrowRight" sample_viewer) =
    sample_viewer /\
  handleKeyPress "ArrowRight" (handleKeyPress "ArrowLeft" sample_viewer) =
    sample_viewer /\
  handleKeyPress "ArrowLeft" initialViewer = initialViewer.
Proof.
  destruct (viewer_arrow_keys sample_viewer) as (H1 & H2 & _).
  destruct (viewer_arrow_keys initialViewer) as (_ & _ & _ & _ & _ & H3).
  split; [apply H1; [reflexivity | unfold photoCount; cbn; lia]|].
  split; [apply H2; [reflexivity | unfold photoCount; cbn; lia]|].
  apply H3. reflexivity.
Defined.

(** X18. The photos button opens the viewer only on photos: either the viewer
    is left as it was, with the message for no photos or for the error
    of the query, and with nothing at all when there is no client, or it
    is opened on the first of the photos received, which are not none,
    with no message. The records and the store are not touched. *)
Theorem handleViewInspectionPhotos_outcome (env : Env) (B : Backend)
    (select_photos : string -> string + list InspectionPhoto)
    (inspection : Inspection) (pv : PhotoViewer) (w : World) :
  ui (snd (handleViewInspectionPhotos env B select_photos inspection (pv, w)))
    = ui w /\
  rows (snd (handleViewInspectionPhotos env B select_photos inspection (pv, w)))
    = rows w /\
  ((fst (handleViewInspectionPhotos env B select_photos inspection (pv, w))
      = pv /\
    (supabase_client B = false /\
     snd (handleViewInspectionPhotos env B select_photos inspection (pv, w))
       = w \/
     supabase_client B = true /\
     select_photos (id inspection) = inr [] /\
     alerts
       (snd (handleViewInspectionPhotos env B select_photos inspection (pv, w)))
       = (alerts w ++
          [t env "fims.noPhotosFound" "No photos found for this inspection"])%list
     \/
     supabase_client B = true /\
     exists message,
       select_photos (id inspection) = inl message /\
       alerts
         (snd (handleViewInspectionPhotos env B select_photos inspection
                 (pv, w)))
         = (alerts w ++ [("Error loading photos: " ++ message)%string])%list))
   \/
   (exists data,
      supabase_client B = true /\
      select_photos (id inspection) = inr data /\ data <> [] /\
      fst (handleViewInspectionPhotos env B select_photos inspection (pv, w))
        = {| showPhotoModal := true; selectedPhotoIndex := 0;
             viewingPhotos := data |} /\
      snd (handleViewInspectionPhotos env B select_photos inspection (pv, w))
        = w)).
Proof.
  unfold handleViewInspectionPhotos.
  destruct (supabase_client B); cbn [negb].
  - destruct (select_photos (id inspection)) as [m|[|p data]]; cbn.
    + split; [reflexivity|]. split; [reflexivity|]. left.
      split; [reflexivity|]. right. right. split; [reflexivity|].
      exists m. split; reflexivity.
    + split; [reflexivity|]. split; [reflexivity|]. left.
      split; [reflexivity|]. right. left. repeat split.
    + split; [reflexivity|]. split; [reflexivity|]. right.
      exists (p :: data). repeat split. discriminate.
  - cbn. split; [reflexivity|]. split; [reflexivity|]. left.
    split; [reflexivity|]. left. split; reflexivity.
Qed.

(** ** Tabs *)

Lemma tabStep_invariant (userRole : option string) (isMobileState : bool)
    (ts ts' : Tabs) :
  tabStep userRole isMobileState ts ts' ->
  (forall i mode, editingInspection ts = Some (i, mode) ->
     mode = "view" \/ mode = "edit") ->
  In (activeTab ts')
    ["dashboard"; "inspections"; "newInspection"; "analytics"] /\
  (activeTab ts' = "analytics" -> is_developer userRole = true) /\
  (forall i mode, editingInspection ts' = Some (i, mode) ->
     mode = "view" \/ mode = "edit").
Proof.
  intros Hstep Hed.
  destruct Hstep as [ts _ | ts item _ Hin | ts item _ _ Hin | ts _ | ts _
                    | ts _ Hdev | ts _ | ts i0 _ | ts i0 _ | ts _];
    cbn [activeTab editingInspection].
  - split; [cbn; auto|]. split; [discriminate | exact Hed].
  - unfold desktopNavItems in Hin.
    destruct (is_developer userRole); cbn in Hin;
      split; [cbn; intuition auto | split; [|exact Hed]
             |cbn; intuition auto | split; [|exact Hed]];
      intros ->; [reflexivity|].
    destruct Hin as [H|[H|[H|[]]]]; discriminate.
  - split; [cbn in *; intuition auto|]. split; [|exact Hed].
    intros ->. destruct Hin as [H|[H|[H|[]]]]; discriminate.
  - split; [cbn; auto|]. split; [discriminate | exact Hed].
  - split; [cbn; auto|]. split; [discriminate | exact Hed].
  - split; [cbn; auto|]. split; [intros _; exact Hdev | exact Hed].
  - split; [cbn; auto|]. split; [discriminate | exact Hed].
  - split; [cbn; auto|]. split; [discriminate|].
    intros i mode [= _ <-]. now left.
  - split; [cbn; auto|]. split; [discriminate|].
    intros i mode [= _ <-]. now right.
  - split; [cbn; auto|]. split; [discriminate|]. discriminate.
Qed.

(** X19. Whatever is clicked from the tab the component mounts with, the tab
    shown is one of the four, the analytics page is shown to a developer
    only, and the inspection handed to the form, if any, is in view or
    in edit mode. *)
Theorem analytics_tab_for_developer_only (userRole : option string)
    (isMobileState : bool) (ts : Tabs) :
  tabSteps userRole isMobileState initialTabs ts ->
  In (activeTab ts)
    ["dashboard"; "inspections"; "newInspection"; "analytics"] /\
  (activeTab ts = "analytics" -> is_developer userRole = true) /\
  (forall i mode, editingInspection ts = Some (i, mode) ->
     mode = "view" \/ mode = "edit").
Proof.
  assert (G : forall ts0 ts1,
    tabSteps userRole isMobileState ts0 ts1 ->
    (In (activeTab ts0)
       ["dashboard"; "inspections"; "newInspection"; "analytics"] /\
     (activeTab ts0 = "analytics" -> is_developer userRole = true) /\
     (forall i mode, editingInspection ts0 = Some (i, mode) ->
        mode = "view" \/ mode = "edit")) ->
    In (activeTab ts1)
      ["dashboard"; "inspections"; "newInspection"; "analytics"] /\
    (activeTab ts1 = "analytics" -> is_developer userRole = true) /\
    (forall i mode, editingInspection ts1 = Some (i, mode) ->
       mode = "view" \/ mode = "edit")).
  { intros ts0 ts1 Hsteps.
    induction Hsteps as [ts0 | ts0 ts1 ts2 Hstep _ IH]; [auto|].
    intros (_ & _ & Hed). apply IH.
    exact (tabStep_invariant _ _ _ _ Hstep Hed). }
  intros Hsteps. apply (G _ _ Hsteps).
  split; [cbn; auto|]. split; discriminate.
Qed.

Lemma analytics_tab_for_developer_only_witness :
  tabSteps (Some "inspector") true initialTabs
    {| activeTab := "newInspection";
       editingInspection :=
         Some (sample_inspection "2" "approved" (Some "2024-01-05") None,
               "view") |} /\
  In "newInspection"
    ["dashboard"; "inspections"; "newInspection"; "analytics"].
Proof.
  assert (H : tabSteps (Some "inspector") true initialTabs
    {| activeTab := "newInspection";
       editingInspection :=
         Some (sample_inspection "2" "approved" (Some "2024-01-05") None,
               "view") |}).
  { eapply tabSteps_cons;
      [apply (step_mobile_nav _ _ initialTabs "inspections");
         [discriminate | reflexivity | cbn; auto]|].
    eapply tabSteps_cons;
      [apply (step_view _ _ _
                (sample_inspection "2" "approved" (Some "2024-01-05") None));
         right; reflexivity|].
    apply tabSteps_nil. }
  split; [exact H|].
  destruct (analytics_tab_for_developer_only _ _ _ H) as (Hin & _).
  exact Hin.
Defined.

(** ** Deleting *)

(** X20. [handleDeleteInspection]: when the user declines the confirmation
    nothing happens. Otherwise the loading flag ends false; when the
    deletion fails the store and the records stay and one message is
    shown, which is the translation of [fims.errorDeletingInspection]
    unless that is empty: [||] binds weaker than [+], so the message of
    the error is part of the fallback only; when the deletion succeeds
    the success message is shown first and the records are refreshed. *)
Theorem handleDeleteInspection_outcome (env : Env) (B : Backend)
    (deleteInspection : string -> list Inspection -> string + list Inspection)
    (inspectionId : string) (w : World) :
  handleDeleteInspection env B deleteInspection false inspectionId w = w /\
  isLoading
    (ui (handleDeleteInspection env B deleteInspection true inspectionId w))
    = false /\
  (forall message,
     deleteInspection inspectionId (rows w) = inl message ->
     rows (handleDeleteInspection env B deleteInspection true inspectionId w)
       = rows w /\
     inspections
       (ui (handleDeleteInspection env B deleteInspection true inspectionId w))
       = inspections (ui w) /\
     alerts (handleDeleteInspection env B deleteInspection true inspectionId w)
       = (alerts w ++
          [if JS.is_empty (t_key env "fims.errorDeletingInspection")
           then ("Error deleting inspection: " ++ message)%string
           else t_key env "fims.errorDeletingInspection"])%list /\
     (translations env !! "fims.errorDeletingInspection" = None ->
      alerts (handleDeleteInspection env B deleteInspection true inspectionId w)
        = (alerts w ++ ["fims.errorDeletingInspection"])%list)) /\
  (forall rows',
     deleteInspection inspectionId (rows w) = inr rows' ->
     rows (handleDeleteInspection env B deleteInspection true inspectionId w)
       = rows' /\
     exists shown,
       alerts (handleDeleteInspection env B deleteInspection true inspectionId w)
         = (alerts w ++
            or_string (t_key env "fims.inspectionDeletedSuccessfully")
              "Inspection deleted successfully" :: shown)%list /\
       (forall data,
          supabase_client B = true -> select_inspections B rows' = inr data ->
          shown = [] /\
          inspections
            (ui (handleDeleteInspection env B deleteInspection true
                   inspectionId w)) = data)).
Proof.
  unfold handleDeleteInspection. cbn [negb rows on_ui].
  split; [reflexivity|]. split; [reflexivity|]. split.
  - intros message ->. cbn. split; [reflexivity|]. split; [reflexivity|].
    split; [reflexivity|].
    intros Hnone. unfold or_string, t_key, t. rewrite Hnone. reflexivity.
  - intros rows' ->. unfold fetchInspectionsData, fetchInspections_failed.
    cbn [rows set_rows alert console_write send on_ui].
    destruct (supabase_client B); cbn [negb].
    + destruct (select_inspections B rows') as [m|d].
      * destruct (JS.includes _ "Failed to fetch");
          [|destruct (JS.includes _ "JWT")]; cbn;
          (split; [reflexivity|]); eexists;
          (split; [rewrite <- app_assoc; reflexivity|]);
          discriminate.
      * cbn. split; [reflexivity|]. exists [].
        split; [reflexivity|]. intros data _ [= <-]. split; reflexivity.
    + cbn. split; [reflexivity|]. eexists.
      split; [rewrite <- app_assoc; reflexivity|]. discriminate.
Qed.

(** ** Device detection *)

Lemma lower_ascii_idempotent (c : ascii) :
  JS.lower_ascii (JS.lower_ascii c) = JS.lower_ascii c.
Proof. destruct c as [[] [] [] [] [] [] [] []]; reflexivity. Qed.

Lemma lowercase_ascii_idempotent (s : string) :
  JS.lowercase_ascii (JS.lowercase_ascii s) = JS.lowercase_ascii s.
Proof.
  induction s as [|c s IH]; cbn [JS.lowercase_ascii]; [reflexivity|].
  now rewrite lower_ascii_idempotent, IH.
Qed.

(** X21. The check of the component returns what the utility [isMobile]
    returns for every window whose user agent is not empty and is
    lower-cased by [toLowerCase] as by the lower-casing of the ASCII
    letters alone, which is what [toLowerCase] does to a user agent of
    ASCII characters. Only the check of the component can throw, and it
    throws exactly when the user agent and the vendor are empty and
    [window.opera] has no [toLowerCase]. *)
Theorem mobile_detections_agree (env : Env) (w : Window) :
  (userAgent w <> "" ->
   toLowerCase env (userAgent w) = JS.lowercase_ascii (userAgent w) ->
   checkMobile env w = Some (isMobile (Some w))) /\
  (checkMobile env w = None <->
   userAgent w = "" /\ vendor w = "" /\ opera w = None).
Proof.
  unfold checkMobile, isMobile, test_any_nocase. split.
  - intros Hne Hlow. destruct (userAgent w) as [|c ua] eqn:E; [contradiction|].
    cbn [JS.is_empty negb existsb]. rewrite Hlow.
    rewrite !lowercase_ascii_idempotent.
    f_equal. rewrite orb_comm. reflexivity.
  - destruct (userAgent w) as [|c ua]; cbn [JS.is_empty negb].
    + destruct (vendor w) as [|d v]; cbn [JS.is_empty negb].
      * destruct (opera w); split; try discriminate; auto.
        intros (_ & _ & H). discriminate.
      * split; [discriminate | intros (_ & H & _); discriminate].
    + split; [discriminate | intros (H & _); discriminate].
Qed.

Lemma mobile_detections_agree_witness :
  checkMobile sample_env sample_window = Some true /\
  isMobile (Some sample_window) = true.
Proof.
  destruct (mobile_detections_agree sample_env sample_window) as (H & _).
  rewrite H; [split; reflexivity | discriminate | reflexivity].
Defined.
